(** * EmbeddedTelnet: a shallow embedding of [src/EmbeddedTelnet.c]

    The development follows the C source function by function.

    - Bytes, enumeration values, [size_t] and [uint64_t] values are integers
      of [Z]; the wrap-around of [size_t] arithmetic is written out with
      [size_wrap].
    - Pointers that the C code compares with [NULL] are [option]s.
    - State reached through pointers (the session, the caller's buffer) is
      passed in and returned.
    - The outside world is a [world]: the host application's own state
      (whatever the callback and the writer can reach, for instance through
      [user_data]) and the log of the library's calls into the host.
    - An operation that C leaves undefined (an array access out of bounds, a
      shift by 64 or more) ends the computation with [Err]. *)

From stdpp Require Import base list strings.
From Stdlib Require Import ZArith Lia.

Open Scope Z_scope.

(** ** Outcomes *)

Inductive error : Type :=
| ReadOutOfBounds
| WriteOutOfBounds
| ShiftTooFar
| FuelExhausted.

Inductive result (A : Type) : Type :=
| Ok (a : A)
| Err (e : error).

Arguments Ok {A} a.
Arguments Err {A} e.

Definition bind {A B : Type} (m : result A) (k : A -> result B) : result B :=
  match m with
  | Ok a => k a
  | Err e => Err e
  end.

Notation "'let*' x ':=' m 'in' k" := (bind m (fun x => k))
  (at level 10, x pattern, m at level 100, k at level 200,
   format "'[v' 'let*'  x  ':='  m  'in' '/' k ']'").

(** ** Constants of [include/EmbeddedTelnet.h] *)

Definition TELNET_SE : Z := 240.
Definition TELNET_NOP : Z := 241.
Definition TELNET_DM : Z := 242.
Definition TELNET_BRK : Z := 243.
Definition TELNET_IP : Z := 244.
Definition TELNET_AO : Z := 245.
Definition TELNET_AYT : Z := 246.
Definition TELNET_EC : Z := 247.
Definition TELNET_EL : Z := 248.
Definition TELNET_GA : Z := 249.
Definition TELNET_SB : Z := 250.
Definition TELNET_WILL : Z := 251.
Definition TELNET_WONT : Z := 252.
Definition TELNET_DO : Z := 253.
Definition TELNET_DONT : Z := 254.
Definition TELNET_IAC : Z := 255.

Definition TELNET_SE_IS : Z := 0.
Definition TELNET_SE_SEND : Z := 1.

Definition TELNET_OPTION_BINARY : Z := 0.
Definition TELNET_OPTION_ECHO : Z := 1.
Definition TELNET_OPTION_SUPPRESS_GO_AHEAD : Z := 3.
Definition TELNET_OPTION_TERMINAL_TYPE : Z := 24.
Definition TELNET_OPTION_FORWARD_X : Z := 49.

Definition TELNET_OPTION_MAX : Z := 50.

(** [sizeof(packet->subnegotiation_data)] and the size of the local buffer of
    [telnet_write_packet]. *)
Definition SUBNEGOTIATION_CAPACITY : Z := 64.
Definition WRITE_PACKET_BUFFER : Z := 80.

(** Width of [size_t] (64 bits here; no proof below depends on the number)
    and the wrap-around of [size_t] and [uint64_t] arithmetic. *)
Definition SIZE_BITS : Z := 64.
Definition size_wrap (z : Z) : Z := z mod 2 ^ SIZE_BITS.
Definition uint64_wrap (z : Z) : Z := z mod 2 ^ 64.

(** ** Data model *)

Inductive telnet_parse_state_t : Type :=
| TELNET_STATE_READY
| TELNET_STATE_IN_COMMAND
| TELNET_STATE_IN_OPTION
| TELNET_STATE_IN_SUBNEGOTIATION_TYPE
| TELNET_STATE_IN_SUBNEGOTIATION_VALUE
| TELNET_STATE_IN_SB_IAC.

(** [telnet_packet_t]; the field [option] of the C struct is [option_] here. *)
Record telnet_packet_t : Type := {
  command : Z;
  option_ : Z;
  subnegotiation_type : Z;
  subnegotiation_length : Z;
  subnegotiation_data : list Z
}.

(** [telnet_session_t]. An entry of [subnegotiation_options] is [None] for
    [NULL], or the bytes found at the address it points to. *)
Record telnet_session_t : Type := {
  state : telnet_parse_state_t;
  packet : telnet_packet_t;
  options : Z;
  subnegotiation_options : list (option (list Z));
  user_data : option Z
}.

Definition set_command (v : Z) (p : telnet_packet_t) : telnet_packet_t :=
  {| command := v; option_ := option_ p;
     subnegotiation_type := subnegotiation_type p;
     subnegotiation_length := subnegotiation_length p;
     subnegotiation_data := subnegotiation_data p |}.

Definition set_option_ (v : Z) (p : telnet_packet_t) : telnet_packet_t :=
  {| command := command p; option_ := v;
     subnegotiation_type := subnegotiation_type p;
     subnegotiation_length := subnegotiation_length p;
     subnegotiation_data := subnegotiation_data p |}.

Definition set_subnegotiation_type (v : Z) (p : telnet_packet_t) : telnet_packet_t :=
  {| command := command p; option_ := option_ p;
     subnegotiation_type := v;
     subnegotiation_length := subnegotiation_length p;
     subnegotiation_data := subnegotiation_data p |}.

Definition set_subnegotiation (len : Z) (bytes : list Z) (p : telnet_packet_t)
  : telnet_packet_t :=
  {| command := command p; option_ := option_ p;
     subnegotiation_type := subnegotiation_type p;
     subnegotiation_length := len;
     subnegotiation_data := bytes |}.

Definition set_state (v : telnet_parse_state_t) (s : telnet_session_t)
  : telnet_session_t :=
  {| state := v; packet := packet s; options := options s;
     subnegotiation_options := subnegotiation_options s;
     user_data := user_data s |}.

Definition set_packet (v : telnet_packet_t) (s : telnet_session_t)
  : telnet_session_t :=
  {| state := state s; packet := v; options := options s;
     subnegotiation_options := subnegotiation_options s;
     user_data := user_data s |}.

Definition set_options (v : Z) (s : telnet_session_t) : telnet_session_t :=
  {| state := state s; packet := packet s; options := v;
     subnegotiation_options := subnegotiation_options s;
     user_data := user_data s |}.

Definition set_subnegotiation_options (v : list (option (list Z)))
  (s : telnet_session_t) : telnet_session_t :=
  {| state := state s; packet := packet s; options := options s;
     subnegotiation_options := v;
     user_data := user_data s |}.

Definition set_user_data (v : option Z) (s : telnet_session_t) : telnet_session_t :=
  {| state := state s; packet := packet s; options := options s;
     subnegotiation_options := subnegotiation_options s;
     user_data := v |}.

(** ** Memory primitives *)

Definition len {A : Type} (l : list A) : Z := Z.of_nat (length l).

(** [a[i]] as an rvalue. *)
Definition array_get {A : Type} (a : list A) (i : Z) : result A :=
  if (0 <=? i) && (i <? len a) then
    match a !! Z.to_nat i with
    | Some x => Ok x
    | None => Err ReadOutOfBounds
    end
  else Err ReadOutOfBounds.

(** [a[i] = x]. *)
Definition array_set {A : Type} (a : list A) (i : Z) (x : A) : result (list A) :=
  if (0 <=? i) && (i <? len a) then Ok (<[Z.to_nat i := x]> a)
  else Err WriteOutOfBounds.

(** The [n] bytes at [a + start]. *)
Definition slice (a : list Z) (start n : Z) : result (list Z) :=
  if (0 <=? start) && (0 <=? n) && (start + n <=? len a) then
    Ok (take (Z.to_nat n) (drop (Z.to_nat start) a))
  else Err ReadOutOfBounds.

(** [memcpy(dst, src, n)], both given from their first byte. *)
Definition memcpy (dst src : list Z) (n : Z) : result (list Z) :=
  let* bytes := slice src 0 n in
  if n <=? len dst then Ok (bytes ++ drop (Z.to_nat n) dst)
  else Err WriteOutOfBounds.

(** [memmove(&a[dst], &a[src], n)] inside one array. *)
Definition memmove (a : list Z) (dst src n : Z) : result (list Z) :=
  let* bytes := slice a src n in
  if (0 <=? dst) && (dst + n <=? len a) then
    Ok (take (Z.to_nat dst) a ++ bytes ++ drop (Z.to_nat (dst + n)) a)
  else Err WriteOutOfBounds.

(** [strlen] on the bytes found at a pointer: the scan stops at the first
    zero byte and leaves the object when there is none. *)
Fixpoint strlen (s : list Z) : result Z :=
  match s with
  | [] => Err ReadOutOfBounds
  | c :: s' => if c =? 0 then Ok 0 else let* n := strlen s' in Ok (n + 1)
  end.

(** [1ULL << index]. *)
Definition shift_one (index : Z) : result Z :=
  if (0 <=? index) && (index <? 64) then Ok (Z.shiftl 1 index)
  else Err ShiftTooFar.

Definition _bit_set (bits index : Z) : result Z :=
  let* m := shift_one index in Ok (Z.lor bits m).

Definition _bit_clear (bits index : Z) : result Z :=
  let* m := shift_one index in Ok (Z.land bits (uint64_wrap (Z.lnot m))).

Definition _bit_get (bits index : Z) : result bool :=
  let* m := shift_one index in Ok (negb (Z.land bits m =? 0)).

(** ** The host: callback, writer and what they can observe *)

(** One entry of the log per call of the library into the host: [Written]
    for a call of the writer with the bytes it is handed, [Dispatched] for a
    packet reaching [_handle_incomming_packet]. *)
Inductive event : Type :=
| Dispatched (p : telnet_packet_t)
| Written (bytes : list Z).

Record world (U : Type) : Type := {
  host : U;
  trace : list event
}.

Arguments host {U} w.
Arguments trace {U} w.

(** [telnet_writer_t] and [telnet_packet_callback_t] as state transformers of
    the host's state. Both are handed the session and may read it; they are
    taken not to write to it (the header asks the application not to modify
    the struct). *)
Definition telnet_writer_t (U : Type) : Type :=
  telnet_session_t -> list Z -> U -> U.

Definition telnet_packet_callback_t (U : Type) : Type :=
  telnet_session_t -> telnet_packet_t -> U -> bool * U.

(** The bytes that reached the sink: the concatenation of the writer's
    invocations. *)
Fixpoint written (t : list event) : list (list Z) :=
  match t with
  | [] => []
  | Written bytes :: t' => bytes :: written t'
  | Dispatched _ :: t' => written t'
  end.

Definition sink (t : list event) : list Z := concat (written t).

Fixpoint dispatched (t : list event) : list telnet_packet_t :=
  match t with
  | [] => []
  | Dispatched p :: t' => p :: dispatched t'
  | Written _ :: t' => dispatched t'
  end.

Section Host.

Context {U : Type}.

Definition log (e : event) (w : world U) : world U :=
  {| host := host w; trace := trace w ++ [e] |}.

(** [writer(session, data, length)]. *)
Definition call_writer (writer : telnet_writer_t U) (session : telnet_session_t)
  (bytes : list Z) (w : world U) : world U :=
  log (Written bytes) {| host := writer session bytes (host w); trace := trace w |}.

(** [callback(session, packet)]. *)
Definition call_callback (callback : telnet_packet_callback_t U)
  (session : telnet_session_t) (p : telnet_packet_t) (w : world U)
  : bool * world U :=
  let '(b, u) := callback session p (host w) in
  (b, {| host := u; trace := trace w |}).

(** ** Packets *)

Definition default_packet : telnet_packet_t :=
  {| command := TELNET_NOP;
     option_ := TELNET_OPTION_BINARY;
     subnegotiation_type := TELNET_SE_IS;
     subnegotiation_length := 0;
     subnegotiation_data := replicate (Z.to_nat SUBNEGOTIATION_CAPACITY) 0 |}.

Definition telnet_init_packet (packet : option telnet_packet_t)
  : option telnet_packet_t :=
  match packet with
  | None => None
  | Some _ => Some default_packet
  end.

Definition telnet_write_packet (session : option telnet_session_t)
  (packet : option telnet_packet_t) (writer : option (telnet_writer_t U))
  (w : world U) : result (world U) :=
  match session, packet, writer with
  | Some s, Some p, Some wr =>
      let buffer := [TELNET_IAC; command p] in
      let* buffer :=
        if (command p =? TELNET_DO) || (command p =? TELNET_DONT)
           || (command p =? TELNET_WILL) || (command p =? TELNET_WONT)
        then Ok (buffer ++ [option_ p])
        else if command p =? TELNET_SB then
          let buffer := buffer ++ [option_ p; subnegotiation_type p] in
          let* bytes := slice (subnegotiation_data p) 0 (subnegotiation_length p) in
          if len buffer + subnegotiation_length p + 2 <=? WRITE_PACKET_BUFFER
          then Ok (buffer ++ bytes ++ [TELNET_IAC; TELNET_SE])
          else Err WriteOutOfBounds
        else Ok buffer in
      Ok (call_writer wr s buffer w)
  | _, _, _ => Ok w
  end.

(** ** Sessions *)

Definition telnet_init (session : option telnet_session_t)
  : option telnet_session_t :=
  match session with
  | None => None
  | Some s =>
      let s := set_state TELNET_STATE_READY s in
      let s := match telnet_init_packet (Some (packet s)) with
               | Some p => set_packet p s
               | None => s
               end in
      let s := set_options 0 s in
      let s := set_subnegotiation_options
                 (replicate (length (subnegotiation_options s)) None) s in
      Some (set_user_data None s)
  end.

Definition telnet_get_user_data (session : option telnet_session_t) : option Z :=
  match session with
  | None => None
  | Some s => user_data s
  end.

Definition telnet_set_user_data (session : option telnet_session_t)
  (v : option Z) : option telnet_session_t :=
  match session with
  | None => None
  | Some s => Some (set_user_data v s)
  end.

Definition telnet_get_option (session : option telnet_session_t) (option_ : Z)
  : result bool :=
  match session with
  | None => Ok false
  | Some s => _bit_get (options s) option_
  end.

Definition telnet_set_option (session : option telnet_session_t) (option_ : Z)
  (value : bool) : result (option telnet_session_t) :=
  match session with
  | None => Ok None
  | Some s =>
      let* bits := if value then _bit_set (options s) option_
                   else _bit_clear (options s) option_ in
      Ok (Some (set_options bits s))
  end.

(** The loop of [telnet_supported_options]: [opt] runs from [option_] up to
    [TELNET_OPTION_MAX]; each round reads one bit into the local
    [supported] and drops it. *)
Fixpoint supported_options_loop (rounds : nat) (s : telnet_session_t) (opt : Z)
  : result unit :=
  match rounds with
  | O => Ok tt
  | S rounds' =>
      if opt <? TELNET_OPTION_MAX then
        let* supported := _bit_get (options s) opt in
        supported_options_loop rounds' s (opt + 1)
      else Ok tt
  end.

(** [telnet_supported_options(session, option_, ...)]; [args] are the
    variadic arguments after [option_]. [va_start] and [va_end] bracket the
    loop and no [va_arg] reads [args]. *)
Definition telnet_supported_options (session : option telnet_session_t)
  (option_ : Z) (args : list Z) : result (option telnet_session_t) :=
  match session with
  | None => Ok None
  | Some s =>
      let* _ := supported_options_loop
                  (Z.to_nat (TELNET_OPTION_MAX - option_)) s option_ in
      Ok (Some s)
  end.

Definition telnet_get_subnegotiation_option (session : option telnet_session_t)
  (option_ : Z) : result (option (list Z)) :=
  match session with
  | None => Ok None
  | Some s => array_get (subnegotiation_options s) option_
  end.

Definition telnet_set_subnegotiation_option (session : option telnet_session_t)
  (option_ : Z) (value : option (list Z)) : result (option telnet_session_t) :=
  match session with
  | None => Ok None
  | Some s =>
      let* table := array_set (subnegotiation_options s) option_ value in
      Ok (Some (set_subnegotiation_options table s))
  end.

(** ** Dispatch and automatic replies *)

Definition _handle_incomming_packet (session : option telnet_session_t)
  (writer : option (telnet_writer_t U))
  (callback : option (telnet_packet_callback_t U)) (w : world U)
  : result (world U) :=
  match session with
  | None => Ok w
  | Some s =>
      let p := packet s in
      let w := log (Dispatched p) w in
      let '(automatic_response, w) :=
        match callback with
        | Some cb => call_callback cb s p w
        | None => (true, w)
        end in
      if negb automatic_response then Ok w
      else
        (* telnet_init_packet(&response_packet) *)
        let response_packet := default_packet in
        if command p =? TELNET_WILL then
          let* supported := telnet_get_option (Some s) (option_ p) in
          let response_packet :=
            set_command (if supported then TELNET_DO else TELNET_DONT)
              response_packet in
          let response_packet := set_option_ (option_ p) response_packet in
          telnet_write_packet (Some s) (Some response_packet) writer w
        else if command p =? TELNET_WONT then
          let response_packet := set_command TELNET_DONT response_packet in
          let response_packet := set_option_ (option_ p) response_packet in
          telnet_write_packet (Some s) (Some response_packet) writer w
        else if command p =? TELNET_DO then
          let* supported := telnet_get_option (Some s) (option_ p) in
          let response_packet :=
            set_command (if supported then TELNET_WILL else TELNET_WONT)
              response_packet in
          let response_packet := set_option_ (option_ p) response_packet in
          telnet_write_packet (Some s) (Some response_packet) writer w
        else if command p =? TELNET_DONT then
          let response_packet := set_command TELNET_WONT response_packet in
          let response_packet := set_option_ (option_ p) response_packet in
          telnet_write_packet (Some s) (Some response_packet) writer w
        else if command p =? TELNET_SB then
          if subnegotiation_type p =? TELNET_SE_SEND then
            let* subnegotiation_option :=
              telnet_get_subnegotiation_option (Some s) (option_ p) in
            match subnegotiation_option with
            | Some reply =>
                let response_packet := set_command TELNET_SB response_packet in
                let response_packet := set_option_ (option_ p) response_packet in
                let response_packet :=
                  set_subnegotiation_type TELNET_SE_IS response_packet in
                let* n := strlen reply in
                let* bytes := memcpy (subnegotiation_data response_packet) reply n in
                let response_packet := set_subnegotiation n bytes response_packet in
                telnet_write_packet (Some s) (Some response_packet) writer w
            | None => Ok w
            end
          else Ok w
        else Ok w
  end.

(** ** The reader *)

Definition _delete_uint8_tacter (data : list Z) (length index : Z)
  : result (list Z * Z) :=
  if index >=? length then Ok (data, length)
  else
    let* data := memmove data index (index + 1) (length - index - 1) in
    Ok (data, length - 1).

(** The variables of the loop of [telnet_read]. *)
Record read_state : Type := {
  rs_session : telnet_session_t;
  rs_data : list Z;
  rs_new_length : Z;
  rs_i : Z;
  rs_world : world U
}.

Definition rs_set_session (s : telnet_session_t) (st : read_state) : read_state :=
  {| rs_session := s; rs_data := rs_data st; rs_new_length := rs_new_length st;
     rs_i := rs_i st; rs_world := rs_world st |}.

Definition rs_set_world (w : world U) (st : read_state) : read_state :=
  {| rs_session := rs_session st; rs_data := rs_data st;
     rs_new_length := rs_new_length st; rs_i := rs_i st; rs_world := w |}.

Definition rs_set_i (i : Z) (st : read_state) : read_state :=
  {| rs_session := rs_session st; rs_data := rs_data st;
     rs_new_length := rs_new_length st; rs_i := i; rs_world := rs_world st |}.

(** The macro [_TELNET_DELETE_CHARACTER]. *)
Definition _TELNET_DELETE_CHARACTER (st : read_state) : result read_state :=
  let* r := _delete_uint8_tacter (rs_data st) (rs_new_length st) (rs_i st) in
  Ok {| rs_session := rs_session st; rs_data := fst r; rs_new_length := snd r;
        rs_i := size_wrap (rs_i st - 1); rs_world := rs_world st |}.

(** [session->state = v]. *)
Definition rs_state (v : telnet_parse_state_t) (st : read_state) : read_state :=
  rs_set_session (set_state v (rs_session st)) st.

(** [session->packet.subnegotiation_data[session->packet.subnegotiation_length++] = c]. *)
Definition packet_append (c : Z) (s : telnet_session_t) : result telnet_session_t :=
  let p := packet s in
  let index := subnegotiation_length p in
  let* bytes := array_set (subnegotiation_data p) index c in
  Ok (set_packet (set_subnegotiation (size_wrap (index + 1)) bytes p) s).

Definition append_subnegotiation (c : Z) (st : read_state) : result read_state :=
  let* s := packet_append c (rs_session st) in
  Ok (rs_set_session s st).

(** [_handle_incomming_packet(session, writer, callback)] from inside the loop. *)
Definition rs_handle (writer : option (telnet_writer_t U))
  (callback : option (telnet_packet_callback_t U)) (st : read_state)
  : result read_state :=
  let* w := _handle_incomming_packet (Some (rs_session st)) writer callback
              (rs_world st) in
  Ok (rs_set_world w st).

(** One round of the loop of [telnet_read]: the body of the [for]. *)
Definition read_body (writer : option (telnet_writer_t U))
  (callback : option (telnet_packet_callback_t U)) (st : read_state)
  : result read_state :=
  let* c := array_get (rs_data st) (rs_i st) in
  match state (rs_session st) with
  | TELNET_STATE_READY =>
      if c =? TELNET_IAC then
        let* st := _TELNET_DELETE_CHARACTER st in
        Ok (rs_state TELNET_STATE_IN_COMMAND st)
      else Ok st
  | TELNET_STATE_IN_COMMAND =>
      let st := rs_set_session
                  (set_packet (set_command c (packet (rs_session st)))
                     (rs_session st)) st in
      if c =? TELNET_IAC then Ok (rs_state TELNET_STATE_READY st)
      else
        let* st := _TELNET_DELETE_CHARACTER st in
        if (c =? TELNET_DO) || (c =? TELNET_DONT)
           || (c =? TELNET_WILL) || (c =? TELNET_WONT)
        then Ok (rs_state TELNET_STATE_IN_OPTION st)
        else if c =? TELNET_SB
        then Ok (rs_state TELNET_STATE_IN_SUBNEGOTIATION_TYPE st)
        else
          let* st := rs_handle writer callback st in
          Ok (rs_state TELNET_STATE_READY st)
  | TELNET_STATE_IN_OPTION =>
      let* st := _TELNET_DELETE_CHARACTER st in
      let st := rs_set_session
                  (set_packet (set_option_ c (packet (rs_session st)))
                     (rs_session st)) st in
      let* st := rs_handle writer callback st in
      Ok (rs_state TELNET_STATE_READY st)
  | TELNET_STATE_IN_SUBNEGOTIATION_TYPE =>
      let* st := _TELNET_DELETE_CHARACTER st in
      let st := rs_set_session
                  (set_packet (set_subnegotiation_type c (packet (rs_session st)))
                     (rs_session st)) st in
      Ok (rs_state TELNET_STATE_IN_SUBNEGOTIATION_VALUE st)
  | TELNET_STATE_IN_SUBNEGOTIATION_VALUE =>
      let* st := _TELNET_DELETE_CHARACTER st in
      if c =? TELNET_IAC then Ok (rs_state TELNET_STATE_IN_SB_IAC st)
      else append_subnegotiation c st
  | TELNET_STATE_IN_SB_IAC =>
      if c =? TELNET_IAC then
        let* st := append_subnegotiation TELNET_IAC st in
        let st := rs_state TELNET_STATE_IN_SUBNEGOTIATION_VALUE st in
        _TELNET_DELETE_CHARACTER st
      else if c =? TELNET_SE then
        let* st := rs_handle writer callback st in
        let st := rs_state TELNET_STATE_READY st in
        _TELNET_DELETE_CHARACTER st
      else
        let* st := rs_handle writer callback st in
        let st := match telnet_init_packet (Some (packet (rs_session st))) with
                  | Some p => rs_set_session (set_packet p (rs_session st)) st
                  | None => st
                  end in
        Ok (rs_state TELNET_STATE_IN_COMMAND st)
  end.

(** [for (size_t i = 0; i < new_length; i++) body]: the test, the body, the
    increment. [fuel] bounds the number of tests. *)
Fixpoint read_loop (fuel : nat) (writer : option (telnet_writer_t U))
  (callback : option (telnet_packet_callback_t U)) (st : read_state)
  : result read_state :=
  match fuel with
  | O => Err FuelExhausted
  | S fuel' =>
      if rs_i st <? rs_new_length st then
        let* st := read_body writer callback st in
        read_loop fuel' writer callback (rs_set_i (size_wrap (rs_i st + 1)) st)
      else Ok st
  end.

(** What a call of [telnet_read] leaves behind: the returned length, the
    session and the buffer behind the two pointers, and the world. *)
Record read_result : Type := {
  rr_return : Z;
  rr_session : option telnet_session_t;
  rr_data : option (list Z);
  rr_world : world U
}.

Definition telnet_read (session : option telnet_session_t)
  (data : option (list Z)) (length : Z)
  (callback : option (telnet_packet_callback_t U))
  (writer : option (telnet_writer_t U)) (w : world U) : result read_result :=
  match data with
  | None => Ok {| rr_return := 0; rr_session := session; rr_data := data;
                  rr_world := w |}
  | Some d =>
      if length =? 0 then
        Ok {| rr_return := 0; rr_session := session; rr_data := data;
              rr_world := w |}
      else
        match session with
        | None => Ok {| rr_return := length; rr_session := session;
                        rr_data := data; rr_world := w |}
        | Some s =>
            let* st := read_loop (S (Z.to_nat length)) writer callback
                         {| rs_session := s; rs_data := d;
                            rs_new_length := length; rs_i := 0;
                            rs_world := w |} in
            Ok {| rr_return := rs_new_length st;
                  rr_session := Some (rs_session st);
                  rr_data := Some (rs_data st);
                  rr_world := rs_world st |}
        end
  end.

(** ** The writer of application data *)

(** The loop of [telnet_write], [for (size_t i = 0; i < length; i++)], for
    the [rounds] values of [i] that remain below [length]; the body changes
    neither [i] nor [length]. *)
Fixpoint write_loop (rounds : nat) (session : telnet_session_t) (data : list Z)
  (writer : telnet_writer_t U) (i start new_length : Z) (w : world U)
  : result (Z * Z * world U) :=
  match rounds with
  | O => Ok (start, new_length, w)
  | S rounds' =>
      let* c := array_get data i in
      let new_length := size_wrap (new_length + 1) in
      if c =? TELNET_IAC then
        let* run := slice data start new_length in
        let w := call_writer writer session run w in
        let escape := [TELNET_IAC; TELNET_IAC] in
        let w := call_writer writer session escape w in
        write_loop rounds' session data writer
          (size_wrap (i + 1)) (size_wrap (i + 1)) 0 w
      else
        write_loop rounds' session data writer
          (size_wrap (i + 1)) start new_length w
  end.

Definition telnet_write (session : option telnet_session_t)
  (data : option (list Z)) (length : Z) (writer : option (telnet_writer_t U))
  (w : world U) : result (world U) :=
  match session, data, writer with
  | Some s, Some d, Some wr =>
      if length =? 0 then Ok w
      else
        let* r := write_loop (Z.to_nat length) s d wr 0 0 0 w in
        let '(start, new_length, w) := r in
        let* run := slice d start new_length in
        Ok (call_writer wr s run w)
  | _, _, _ => Ok w
  end.

(** ** The reader as a transducer

    [feed] is one round of [read_body] without the buffer: what the round
    does to the session and to the world, and whether the byte stays in the
    buffer. [scan] feeds a whole input and collects the bytes that stay.
    [read_body_feed] and [read_loop_scan] below prove that the loop of
    [telnet_read] computes exactly this. *)

Definition feed (writer : option (telnet_writer_t U))
  (callback : option (telnet_packet_callback_t U))
  (s : telnet_session_t) (w : world U) (c : Z)
  : result (telnet_session_t * world U * bool) :=
  match state s with
  | TELNET_STATE_READY =>
      if c =? TELNET_IAC then Ok (set_state TELNET_STATE_IN_COMMAND s, w, false)
      else Ok (s, w, true)
  | TELNET_STATE_IN_COMMAND =>
      let s := set_packet (set_command c (packet s)) s in
      if c =? TELNET_IAC then Ok (set_state TELNET_STATE_READY s, w, true)
      else if (c =? TELNET_DO) || (c =? TELNET_DONT)
              || (c =? TELNET_WILL) || (c =? TELNET_WONT)
      then Ok (set_state TELNET_STATE_IN_OPTION s, w, false)
      else if c =? TELNET_SB
      then Ok (set_state TELNET_STATE_IN_SUBNEGOTIATION_TYPE s, w, false)
      else
        let* w := _handle_incomming_packet (Some s) writer callback w in
        Ok (set_state TELNET_STATE_READY s, w, false)
  | TELNET_STATE_IN_OPTION =>
      let s := set_packet (set_option_ c (packet s)) s in
      let* w := _handle_incomming_packet (Some s) writer callback w in
      Ok (set_state TELNET_STATE_READY s, w, false)
  | TELNET_STATE_IN_SUBNEGOTIATION_TYPE =>
      let s := set_packet (set_subnegotiation_type c (packet s)) s in
      Ok (set_state TELNET_STATE_IN_SUBNEGOTIATION_VALUE s, w, false)
  | TELNET_STATE_IN_SUBNEGOTIATION_VALUE =>
      if c =? TELNET_IAC then Ok (set_state TELNET_STATE_IN_SB_IAC s, w, false)
      else
        let* s := packet_append c s in
        Ok (s, w, false)
  | TELNET_STATE_IN_SB_IAC =>
      if c =? TELNET_IAC then
        let* s := packet_append TELNET_IAC s in
        Ok (set_state TELNET_STATE_IN_SUBNEGOTIATION_VALUE s, w, false)
      else if c =? TELNET_SE then
        let* w := _handle_incomming_packet (Some s) writer callback w in
        Ok (set_state TELNET_STATE_READY s, w, false)
      else
        let* w := _handle_incomming_packet (Some s) writer callback w in
        Ok (set_state TELNET_STATE_IN_COMMAND (set_packet default_packet s),
            w, true)
  end.

Fixpoint scan (writer : option (telnet_writer_t U))
  (callback : option (telnet_packet_callback_t U))
  (s : telnet_session_t) (w : world U) (input : list Z)
  : result (telnet_session_t * world U * list Z) :=
  match input with
  | [] => Ok (s, w, [])
  | c :: input' =>
      let* r := feed writer callback s w c in
      let* r' := scan writer callback (fst (fst r)) (snd (fst r)) input' in
      Ok (fst (fst r'), snd (fst r'),
          if snd r then c :: snd r' else snd r')
  end.

(** The state of the loop after a round that started at index [len pre] of
    [pre ++ c :: rest ++ tail] and ended as [r] tells. *)
Definition after_round (pre : list Z) (c : Z) (rest tail : list Z)
  (r : telnet_session_t * world U * bool) : read_state :=
  if snd r then
    {| rs_session := fst (fst r); rs_data := pre ++ c :: rest ++ tail;
       rs_new_length := len pre + 1 + len rest; rs_i := len pre;
       rs_world := snd (fst r) |}
  else
    {| rs_session := fst (fst r);
       rs_data := pre ++ rest ++ drop (length rest) (c :: rest ++ tail);
       rs_new_length := len pre + len rest;
       rs_i := size_wrap (len pre - 1);
       rs_world := snd (fst r) |}.

(** What a caller observes of a call of [telnet_read]: the session, the
    world, and the bytes retained in the buffer, that is its first
    [rr_return] bytes. *)
Definition retained (r : read_result) : list Z :=
  match rr_data r with
  | Some d => take (Z.to_nat (rr_return r)) d
  | None => []
  end.

Definition read_outcome (r : result read_result)
  : result (option telnet_session_t * world U * list Z) :=
  let* r := r in
  Ok (rr_session r, rr_world r, retained r).

End Host.

(** ** Reference definitions

    The definitions of this part follow the wording of the specification,
    not the C source; the theorems compare the code with them. *)

(** Byte stuffing of application data: every IAC doubled. *)
Definition escape (d : list Z) : list Z :=
  flat_map (fun c => if c =? TELNET_IAC then [TELNET_IAC; TELNET_IAC] else [c]) d.

(** The wire format of a packet: [IAC <cmd>], [IAC <DO|DONT|WILL|WONT> <option>],
    [IAC SB <option> <subneg-type> <data> IAC SE] with IAC doubled inside the
    data. *)
Definition wire_format (p : telnet_packet_t) : list Z :=
  [TELNET_IAC; command p] ++
  (if (command p =? TELNET_DO) || (command p =? TELNET_DONT)
      || (command p =? TELNET_WILL) || (command p =? TELNET_WONT)
   then [option_ p]
   else if command p =? TELNET_SB then
     [option_ p; subnegotiation_type p]
     ++ escape (take (Z.to_nat (subnegotiation_length p)) (subnegotiation_data p))
     ++ [TELNET_IAC; TELNET_SE]
   else []).

(** The bytes of a NUL-terminated string. *)
Fixpoint c_string (bytes : list Z) : list Z :=
  match bytes with
  | [] => []
  | c :: bytes' => if c =? 0 then [] else c :: c_string bytes'
  end.

Fixpoint terminated (bytes : list Z) : bool :=
  match bytes with
  | [] => false
  | c :: bytes' => if c =? 0 then true else terminated bytes'
  end.

(** The canned reply registered for an option, if any. *)
Definition registered_reply (s : telnet_session_t) (o : Z) : option (list Z) :=
  if 0 <=? o then
    match subnegotiation_options s !! Z.to_nat o with
    | Some (Some str) => Some (c_string str)
    | _ => None
    end
  else None.

(** The negotiation table: the bytes of the automatic reply to a packet, if
    it has one. An option is supported when its bit is set in the bitset. *)
Definition negotiation_table (s : telnet_session_t) (p : telnet_packet_t)
  : option (list Z) :=
  let supported := Z.testbit (options s) (option_ p) in
  if command p =? TELNET_WILL then
    Some [TELNET_IAC; if supported then TELNET_DO else TELNET_DONT; option_ p]
  else if command p =? TELNET_WONT then
    Some [TELNET_IAC; TELNET_DONT; option_ p]
  else if command p =? TELNET_DO then
    Some [TELNET_IAC; if supported then TELNET_WILL else TELNET_WONT; option_ p]
  else if command p =? TELNET_DONT then
    Some [TELNET_IAC; TELNET_WONT; option_ p]
  else if (command p =? TELNET_SB) && (subnegotiation_type p =? TELNET_SE_SEND) then
    match registered_reply s (option_ p) with
    | Some reply =>
        Some ([TELNET_IAC; TELNET_SB; option_ p; TELNET_SE_IS] ++ reply
              ++ [TELNET_IAC; TELNET_SE])
    | None => None
    end
  else None.

(** The option of the packet lies inside the table its reply consults: the
    64 bits of [options] for WILL and DO, the [TELNET_OPTION_MAX] entries of
    [subnegotiation_options] for SB with SEND, where a registered reply is a
    NUL-terminated string that fits [subnegotiation_data]. *)
Definition within_tables (s : telnet_session_t) (p : telnet_packet_t) : bool :=
  if (command p =? TELNET_WILL) || (command p =? TELNET_DO) then
    (0 <=? option_ p) && (option_ p <? 64)
  else if (command p =? TELNET_SB) && (subnegotiation_type p =? TELNET_SE_SEND) then
    (len (subnegotiation_options s) =? TELNET_OPTION_MAX)
    && (0 <=? option_ p) && (option_ p <? TELNET_OPTION_MAX)
    && match subnegotiation_options s !! Z.to_nat (option_ p) with
       | Some (Some str) =>
           terminated str && (len (c_string str) <=? SUBNEGOTIATION_CAPACITY)
       | _ => true
       end
  else true.

(** What [telnet_write] hands to the sink for each byte of the data, as
    [telnet_write_sink] proves: an IAC comes out three times. *)
Definition tripled (d : list Z) : list Z :=
  flat_map (fun c => if c =? TELNET_IAC
                     then [TELNET_IAC; TELNET_IAC; TELNET_IAC] else [c]) d.

Section Policy.

Context {U : Type}.

(** The callback's verdict on the packet of the session: [true] by default
    when there is no callback. *)
Definition verdict (callback : option (telnet_packet_callback_t U))
  (s : telnet_session_t) (w : world U) : bool * world U :=
  match callback with
  | Some cb => call_callback cb s (packet s) (log (Dispatched (packet s)) w)
  | None => (true, log (Dispatched (packet s)) w)
  end.

(** The world after the reply of the table went through the writer once. *)
Definition reply_sent (writer : telnet_writer_t U) (s : telnet_session_t)
  (w : world U) : world U :=
  match negotiation_table s (packet s) with
  | Some bytes => call_writer writer s bytes w
  | None => w
  end.

(** The automatic-response policy at one dispatch: when the reply is not
    suppressed, the dispatch emits exactly the reply of the table. *)
Definition replies_by_table (s : telnet_session_t) (writer : telnet_writer_t U)
  (callback : option (telnet_packet_callback_t U)) (w : world U) : Prop :=
  fst (verdict callback s w) = true ->
  _handle_incomming_packet (Some s) (Some writer) callback w
  = Ok (reply_sent writer s (snd (verdict callback s w))).

(** A callback that allows every automatic reply, and one that suppresses
    every one. *)
Definition allow_all : telnet_packet_callback_t U := fun _ _ u => (true, u).
Definition deny_all : telnet_packet_callback_t U := fun _ _ u => (false, u).

End Policy.

(** ** Concrete sessions and hosts for the examples *)

(** Session memory before [telnet_init]: all bytes zero. *)
Definition zeroed_session : telnet_session_t :=
  {| state := TELNET_STATE_READY;
     packet := {| command := 0; option_ := 0; subnegotiation_type := 0;
                  subnegotiation_length := 0;
                  subnegotiation_data :=
                    replicate (Z.to_nat SUBNEGOTIATION_CAPACITY) 0 |};
     options := 0;
     subnegotiation_options := replicate (Z.to_nat TELNET_OPTION_MAX) None;
     user_data := None |}.

Definition fresh_session : telnet_session_t :=
  match telnet_init (Some zeroed_session) with
  | Some s => s
  | None => zeroed_session
  end.

(** A host without state, a writer that only is logged, a world with an
    empty log. *)
Definition discard : telnet_writer_t unit := fun _ _ u => u.
Definition quiet : world unit := {| host := tt; trace := [] |}.

(** A fresh session with the canned reply "xterm" registered for
    TERMINAL-TYPE. *)
Definition xterm_session : telnet_session_t :=
  set_subnegotiation_options
    (<[24%nat := Some [120; 116; 101; 114; 109; 0]]>
       (subnegotiation_options fresh_session))
    fresh_session.

(** A fresh session with the canned reply "xterm" registered for
    TERMINAL-TYPE, holding the completed packet SB TERMINAL-TYPE SEND. *)
Definition terminal_type_session : telnet_session_t :=
  set_packet
    (set_subnegotiation_type TELNET_SE_SEND
       (set_option_ TELNET_OPTION_TERMINAL_TYPE
          (set_command TELNET_SB default_packet)))
    (set_subnegotiation_options
       (<[24%nat := Some [120; 116; 101; 114; 109; 0]]>
          (subnegotiation_options fresh_session))
       fresh_session).

(** A session with all 64 bits of the bitset set, holding the completed
    packet WILL 64; and a session with some user data, holding the completed
    packet SB 50 SEND. *)
Definition will_64_session : telnet_session_t :=
  set_packet (set_option_ 64 (set_command TELNET_WILL default_packet))
    (set_options (2 ^ 64 - 1) fresh_session).

Definition send_50_session : telnet_session_t :=
  set_packet
    (set_subnegotiation_type TELNET_SE_SEND
       (set_option_ 50 (set_command TELNET_SB default_packet)))
    (set_user_data (Some 4096) fresh_session).

(** A session with a canned reply of 65 bytes registered for TERMINAL-TYPE,
    holding the completed packet SB TERMINAL-TYPE SEND. *)
Definition long_reply_session : telnet_session_t :=
  set_packet
    (set_subnegotiation_type TELNET_SE_SEND
       (set_option_ TELNET_OPTION_TERMINAL_TYPE
          (set_command TELNET_SB default_packet)))
    (set_subnegotiation_options
       (<[24%nat := Some (replicate 65 65 ++ [0])]>
          (subnegotiation_options fresh_session))
       fresh_session).

(** A session that supports option 3, holding the completed packet DO 3. *)
Definition do_3_session : telnet_session_t :=
  set_packet (set_option_ 3 (set_command TELNET_DO default_packet))
    (set_options 8 fresh_session).

(** ** Names for logging

    [telnet_command_name], [telnet_subnegotiation_name] and
    [telnet_option_name]: each is a [switch] over the values of an
    enumeration with a [default]. The arguments declared [uint8_t] are
    bytes. *)

Definition telnet_command_name (command_ : Z) : string :=
  match command_ with
  | 255 (* TELNET_IAC *) => "IAC"%string
  | 254 (* TELNET_DONT *) => "DONT"%string
  | 253 (* TELNET_DO *) => "DO"%string
  | 252 (* TELNET_WONT *) => "WONT"%string
  | 251 (* TELNET_WILL *) => "WILL"%string
  | 250 (* TELNET_SB *) => "SB"%string
  | 249 (* TELNET_GA *) => "GA"%string
  | 248 (* TELNET_EL *) => "EL"%string
  | 247 (* TELNET_EC *) => "EC"%string
  | 246 (* TELNET_AYT *) => "AYT"%string
  | 245 (* TELNET_AO *) => "AO"%string
  | 244 (* TELNET_IP *) => "IP"%string
  | 243 (* TELNET_BRK *) => "BRK"%string
  | 242 (* TELNET_DM *) => "DM"%string
  | 241 (* TELNET_NOP *) => "NOP"%string
  | 240 (* TELNET_SE *) => "SE"%string
  | _ => "UNKNOWN"%string
  end.

Definition telnet_subnegotiation_name (subnegotiation : Z) : string :=
  match subnegotiation with
  | 0 (* TELNET_SE_IS *) => "SE IS"%string
  | 1 (* TELNET_SE_SEND *) => "SE SEND"%string
  | _ => "UNKNOWN"%string
  end.

Definition telnet_option_name (option_ : Z) : string :=
  match option_ with
  | 0 (* TELNET_OPTION_BINARY *) => "BINARY"%string
  | 1 (* TELNET_OPTION_ECHO *) => "ECHO"%string
  | 2 (* TELNET_OPTION_RECONNECTION *) => "RECONNECTION"%string
  | 3 (* TELNET_OPTION_SUPPRESS_GO_AHEAD *) => "SUPPRESS GO AHEAD"%string
  | 4 (* TELNET_OPTION_MSG_SIZE *) => "MSG SIZE"%string
  | 5 (* TELNET_OPTION_STATUS *) => "STATUS"%string
  | 6 (* TELNET_OPTION_TIMING_MARK *) => "TIMING MARK"%string
  | 7 (* TELNET_OPTION_RCTE *) => "REMOTE CONTROLLED TRANSMISSION AND ECHO"%string
  | 8 (* TELNET_OPTION_OUTPUT_LINE_WIDTH *) => "OUTPUT LINE WIDTH"%string
  | 9 (* TELNET_OPTION_OUTPUT_PAGE_SIZE *) => "OUTPUT PAGE SIZE"%string
  | 10 (* TELNET_OPTION_OUTPUT_CR_DISPOSITION *) => "OUTPUT CR DISPOSITION"%string
  | 11 (* TELNET_OPTION_OUTPUT_HORIZONTAL_TAB *) => "OUTPUT HORIZONTAL TAB"%string
  | 12 (* TELNET_OPTION_OUTPUT_HORIZ_TAB_DISP *) => "OUTPUT HORIZONTAL TAB DISP"%string
  | 13 (* TELNET_OPTION_OUTPUT_FORM_FEED *) => "OUTPUT FORM FEED"%string
  | 14 (* TELNET_OPTION_OUTPUT_VERTICAL_TAB *) => "OUTPUT VERTICAL TAB"%string
  | 15 (* TELNET_OPTION_OUTPUT_VERT_TAB_DISP *) => "OUTPUT VERTICAL TAB DISP"%string
  | 16 (* TELNET_OPTION_OUTPUT_LINE_FEED *) => "OUTPUT LINE FEED"%string
  | 17 (* TELNET_OPTION_EXTENDED_ASCII *) => "EXTENDED ASCII"%string
  | 18 (* TELNET_OPTION_LOGOUT *) => "LOGOUT"%string
  | 19 (* TELNET_OPTION_BYTE_MACRO *) => "BYTE MACRO"%string
  | 20 (* TELNET_OPTION_DATA_ENTRY *) => "DATA ENTRY"%string
  | 21 (* TELNET_OPTION_SUPDUP *) => "SUPDUP"%string
  | 22 (* TELNET_OPTION_SUPDUP_OUTPUT *) => "SUPDUP OUTPUT"%string
  | 23 (* TELNET_OPTION_SEND_LOCATION *) => "SEND LOCATION"%string
  | 24 (* TELNET_OPTION_TERMINAL_TYPE *) => "TERMINAL TYPE"%string
  | 25 (* TELNET_OPTION_END_OF_RECORD *) => "END OF RECORD"%string
  | 26 (* TELNET_OPTION_TACACAS *) => "TACACS"%string
  | 27 (* TELNET_OPTION_OUTPUT_MARKING *) => "OUTPUT MARKING"%string
  | 28 (* TELNET_OPTION_TERMINAL_LOCATION *) => "TERMINAL LOCATION"%string
  | 29 (* TELNET_OPTION_TN3270 *) => "TN3270"%string
  | 30 (* TELNET_OPTION_X3_PAD *) => "X3 PAD"%string
  | 31 (* TELNET_OPTION_WINDOW_SIZE *) => "WINDOW SIZE"%string
  | 32 (* TELNET_OPTION_TERMINAL_SPEED *) => "TERMINAL SPEED"%string
  | 33 (* TELNET_OPTION_FLOW_CONTROL *) => "FLOW CONTROL"%string
  | 34 (* TELNET_OPTION_LINE_MODE *) => "LINE MODE"%string
  | 35 (* TELNET_OPTION_X_DISPLAY_LOCATION *) => "X DISPLAY LOCATION"%string
  | 36 (* TELNET_OPTION_ENV *) => "ENVIRONMENT"%string
  | 37 (* TELNET_OPTION_AUTHENTICATION *) => "AUTHENTICATION"%string
  | 38 (* TELNET_OPTION_ENCRYPTION *) => "ENCRYPTION"%string
  | 39 (* TELNET_OPTION_NEW_ENVIRON *) => "NEW ENVIRONMENT"%string
  | 40 (* TELNET_OPTION_TN3270E *) => "TN3270E"%string
  | 41 (* TELNET_OPTION_XAUTH *) => "XAUTH"%string
  | 42 (* TELNET_OPTION_CHARSET *) => "CHARSET"%string
  | 43 (* TELNET_OPTION_REMOTE_SERIAL_PORT *) => "REMOTE SERIAL PORT"%string
  | 44 (* TELNET_OPTION_COM_PORT_CONTROL *) => "COM PORT CONTROL"%string
  | 45 (* TELNET_OPTION_SUPPRESS_LOCAL_ECHO *) => "SUPPRESS LOCAL ECHO"%string
  | 46 (* TELNET_OPTION_START_TLS *) => "START TLS"%string
  | 47 (* TELNET_OPTION_KERMIT *) => "KERMIT"%string
  | 48 (* TELNET_OPTION_SEND_URL *) => "SEND URL"%string
  | 49 (* TELNET_OPTION_FORWARD_X *) => "FORWARD X"%string
  | _ => "UNKNOWN"%string
  end.

(** The name of the [default] branches. *)
Definition UNKNOWN : string := "UNKNOWN"%string.

(** ** Well-formed packets *)

(** The packet as the C type holds it: an array of 64 bytes, and a length
    that counts bytes inside it. *)
Definition packet_ok (p : telnet_packet_t) : Prop :=
  len (subnegotiation_data p) = SUBNEGOTIATION_CAPACITY
  /\ 0 <= subnegotiation_length p <= SUBNEGOTIATION_CAPACITY.

(** A fresh session that has read IAC SB and the byte after it: it collects
    the data of a subnegotiation. *)
Definition collecting_session : telnet_session_t :=
  set_state TELNET_STATE_IN_SUBNEGOTIATION_VALUE
    (set_packet (set_command TELNET_SB default_packet) fresh_session).

(** * Properties *)

(** ** Tactics *)

(** Settle a comparison of the code once its operands are known well enough
    for [lia]. *)
Ltac cmp_true t :=
  replace t with true
    by (symmetry;
        first [ apply Z.leb_le | apply Z.ltb_lt | apply Z.geb_le
              | apply Z.eqb_eq ]; lia).

Ltac cmp_false t :=
  replace t with false
    by (symmetry;
        first [ apply Z.leb_gt | apply Z.ltb_ge
              | rewrite Z.geb_leb; apply Z.leb_gt
              | apply Z.eqb_neq ]; lia).

Ltac break_match :=
  repeat match goal with
    | |- context [match ?x with _ => _ end] => destruct x eqn:?
    | |- context [if ?x then _ else _] => destruct x eqn:?
    end.

(** ** Arithmetic and memory lemmas *)

Lemma len_nil {A : Type} : len (@nil A) = 0.
Proof. reflexivity. Qed.

Lemma len_cons {A : Type} (x : A) (l : list A) : len (x :: l) = len l + 1.
Proof. unfold len. simpl. lia. Qed.

Lemma len_app {A : Type} (l1 l2 : list A) : len (l1 ++ l2) = len l1 + len l2.
Proof. unfold len. rewrite length_app. lia. Qed.

Lemma len_nonneg {A : Type} (l : list A) : 0 <= len l.
Proof. unfold len. lia. Qed.

Lemma to_nat_len {A : Type} (l : list A) : Z.to_nat (len l) = length l.
Proof. unfold len. lia. Qed.

Lemma size_wrap_small (z : Z) : 0 <= z < 2 ^ SIZE_BITS -> size_wrap z = z.
Proof. intros H. unfold size_wrap. apply Z.mod_small. exact H. Qed.

(** [i--] followed by [i++] gives [i] back, also when [i] is [0]. *)
Lemma size_wrap_pred_succ (i : Z) :
  0 <= i < 2 ^ SIZE_BITS -> size_wrap (size_wrap (i - 1) + 1) = i.
Proof.
  intros H. unfold size_wrap.
  rewrite Zplus_mod_idemp_l.
  replace (i - 1 + 1) with i by lia.
  apply Z.mod_small. exact H.
Qed.

(** Reads and slices at a known position. *)
Lemma array_get_middle {A : Type} (pre : list A) (x : A) (post : list A) :
  array_get (pre ++ x :: post) (len pre) = Ok x.
Proof.
  unfold array_get.
  rewrite len_app, len_cons.
  pose proof (len_nonneg pre). pose proof (len_nonneg post).
  cmp_true (0 <=? len pre).
  cmp_true (len pre <? len pre + (len post + 1)).
  simpl. rewrite to_nat_len.
  rewrite lookup_app_r by lia.
  replace (length pre - length pre)%nat with 0%nat by lia.
  reflexivity.
Qed.

Lemma array_get_lookup {A : Type} (a : list A) (i : Z) :
  0 <= i < len a ->
  exists x, a !! Z.to_nat i = Some x /\ array_get a i = Ok x.
Proof.
  intros H. unfold array_get.
  cmp_true (0 <=? i). cmp_true (i <? len a). cbn [andb].
  destruct (a !! Z.to_nat i) as [x|] eqn:Hx.
  - exists x. split; reflexivity.
  - apply lookup_ge_None in Hx. unfold len in H. lia.
Qed.

Lemma slice_middle (pre mid post : list Z) :
  slice (pre ++ mid ++ post) (len pre) (len mid) = Ok mid.
Proof.
  unfold slice.
  rewrite !len_app.
  pose proof (len_nonneg pre). pose proof (len_nonneg mid).
  pose proof (len_nonneg post).
  cmp_true (0 <=? len pre).
  cmp_true (0 <=? len mid).
  cmp_true (len pre + len mid <=? len pre + (len mid + len post)).
  simpl. rewrite !to_nat_len.
  rewrite drop_app_length, take_app_length. reflexivity.
Qed.

Lemma slice_back (pre bytes : list Z) :
  slice (pre ++ bytes) (len pre) (len bytes) = Ok bytes.
Proof.
  pose proof (slice_middle pre bytes []) as H.
  rewrite app_nil_r in H. exact H.
Qed.

Lemma slice_front (bytes rest : list Z) :
  slice (bytes ++ rest) 0 (len bytes) = Ok bytes.
Proof. apply (slice_middle [] bytes rest). Qed.

(** Deleting the byte at the scan index: the bytes before it stay, the
    bytes after it up to [length] move one place to the left, and what lies
    from the last of them on is left as it was. *)
Lemma _delete_uint8_tacter_middle (pre : list Z) (c : Z) (rest tail : list Z) :
  _delete_uint8_tacter (pre ++ c :: rest ++ tail)
    (len pre + 1 + len rest) (len pre)
  = Ok (pre ++ rest ++ drop (length rest) (c :: rest ++ tail),
        len pre + len rest).
Proof.
  unfold _delete_uint8_tacter.
  pose proof (len_nonneg pre) as Hpre. pose proof (len_nonneg rest) as Hrest.
  pose proof (len_nonneg tail) as Htail.
  cmp_false (len pre >=? len pre + 1 + len rest).
  replace (len pre + 1 + len rest - len pre - 1) with (len rest) by lia.
  unfold memmove.
  replace (pre ++ c :: rest ++ tail) with ((pre ++ [c]) ++ rest ++ tail) at 1
    by (rewrite <- app_assoc; reflexivity).
  replace (len pre + 1) with (len (pre ++ [c]))
    by (rewrite len_app, len_cons, len_nil; lia).
  rewrite slice_middle. simpl.
  rewrite !len_app, !len_cons, !len_app.
  cmp_true (0 <=? len pre).
  cmp_true (len pre + len rest <=? len pre + (len rest + len tail + 1)).
  simpl.
  rewrite to_nat_len, take_app_length.
  replace (Z.to_nat (len pre + len rest)) with (length pre + length rest)%nat
    by (unfold len; lia).
  rewrite drop_app_add'. 2: reflexivity.
  rewrite len_nil. do 2 f_equal. lia.
Qed.

(** Masking with one bit. *)
Lemma land_pow2 (bits i : Z) :
  0 <= i -> Z.land bits (2 ^ i) = if Z.testbit bits i then 2 ^ i else 0.
Proof.
  intros Hi. apply Z.bits_inj'. intros n Hn.
  rewrite Z.land_spec, Z.pow2_bits_eqb by exact Hi.
  destruct (Z.eqb_spec i n) as [->|Hne].
  - destruct (Z.testbit bits n).
    + rewrite Z.pow2_bits_eqb, Z.eqb_refl by exact Hn. reflexivity.
    + rewrite Z.bits_0. reflexivity.
  - rewrite andb_false_r.
    destruct (Z.testbit bits i).
    + rewrite Z.pow2_bits_eqb by exact Hi.
      symmetry. apply Z.eqb_neq. exact Hne.
    + rewrite Z.bits_0. reflexivity.
Qed.

Lemma shift_one_pow2 (index : Z) :
  0 <= index < 64 -> shift_one index = Ok (2 ^ index).
Proof.
  intros H. unfold shift_one.
  cmp_true (0 <=? index). cmp_true (index <? 64). cbn [andb].
  rewrite Z.shiftl_1_l. reflexivity.
Qed.

Lemma testbit_bit_set (bits index n : Z) :
  0 <= index -> 0 <= n ->
  Z.testbit (Z.lor bits (2 ^ index)) n = Z.testbit bits n || (index =? n).
Proof.
  intros Hi Hn. rewrite Z.lor_spec, Z.pow2_bits_eqb by exact Hi. reflexivity.
Qed.

Lemma testbit_bit_clear (bits index n : Z) :
  0 <= index -> 0 <= n < 64 ->
  Z.testbit (Z.land bits (uint64_wrap (Z.lnot (2 ^ index)))) n
  = Z.testbit bits n && negb (index =? n).
Proof.
  intros Hi Hn. unfold uint64_wrap.
  rewrite Z.land_spec, Z.mod_pow2_bits_low by lia.
  rewrite Z.lnot_spec, Z.pow2_bits_eqb by lia. reflexivity.
Qed.

(** Inside the 64 bits, [_bit_get] reads the bit. *)
Lemma _bit_get_testbit (bits index : Z) :
  0 <= index < 64 -> _bit_get bits index = Ok (Z.testbit bits index).
Proof.
  intros H. unfold _bit_get, shift_one.
  cmp_true (0 <=? index). cmp_true (index <? 64). cbn [andb bind].
  rewrite Z.shiftl_1_l, land_pow2 by lia.
  destruct (Z.testbit bits index); [|reflexivity].
  assert (0 < 2 ^ index) by (apply Z.pow_pos_nonneg; lia).
  cmp_false (2 ^ index =? 0). reflexivity.
Qed.

(** [strlen] and the copy of a terminated string. *)
Lemma strlen_c_string (str : list Z) :
  terminated str = true -> strlen str = Ok (len (c_string str)).
Proof.
  induction str as [|c str IH]; cbn [terminated strlen c_string]; [discriminate|].
  destruct (c =? 0); [reflexivity|].
  intros H. rewrite (IH H). cbn [bind]. rewrite len_cons. reflexivity.
Qed.

Lemma c_string_prefix (str : list Z) :
  take (length (c_string str)) str = c_string str.
Proof.
  induction str as [|c str IH]; cbn [c_string]; [reflexivity|].
  destruct (c =? 0); [reflexivity|].
  cbn [length take]. rewrite IH. reflexivity.
Qed.

Lemma c_string_length (str : list Z) : (length (c_string str) <= length str)%nat.
Proof.
  induction str as [|c str IH]; cbn [c_string]; [reflexivity|].
  destruct (c =? 0); cbn [length]; lia.
Qed.

Lemma slice_c_string (str : list Z) :
  slice str 0 (len (c_string str)) = Ok (c_string str).
Proof.
  unfold slice.
  pose proof (len_nonneg (c_string str)). pose proof (c_string_length str).
  assert (len (c_string str) <= len str) by (unfold len; lia).
  cmp_true (0 <=? 0). cmp_true (0 <=? len (c_string str)).
  cmp_true (0 + len (c_string str) <=? len str).
  cbn [andb]. rewrite to_nat_len. change (Z.to_nat 0) with 0%nat.
  rewrite drop_0, c_string_prefix. reflexivity.
Qed.

Lemma written_app (t1 t2 : list event) :
  written (t1 ++ t2) = written t1 ++ written t2.
Proof.
  induction t1 as [|[p|bytes] t1 IH]; cbn [app written]; rewrite ?IH; reflexivity.
Qed.

Lemma sink_app (t1 t2 : list event) : sink (t1 ++ t2) = sink t1 ++ sink t2.
Proof. unfold sink. rewrite written_app. apply concat_app. Qed.

(** ** The memory primitives never report exhausted fuel *)

Lemma bind_within_fuel {A B : Type} (m : result A) (k : A -> result B) :
  m <> Err FuelExhausted ->
  (forall a, k a <> Err FuelExhausted) ->
  bind m k <> Err FuelExhausted.
Proof.
  intros Hm Hk. destruct m as [a|e]; cbn [bind]; [apply Hk|].
  intros H. apply Hm. inversion H. reflexivity.
Qed.

Lemma array_get_within_fuel {A : Type} (a : list A) (i : Z) :
  array_get a i <> Err FuelExhausted.
Proof. unfold array_get. break_match; discriminate. Qed.

Lemma array_set_within_fuel {A : Type} (a : list A) (i : Z) (x : A) :
  array_set a i x <> Err FuelExhausted.
Proof. unfold array_set. break_match; discriminate. Qed.

Lemma slice_within_fuel (a : list Z) (start n : Z) :
  slice a start n <> Err FuelExhausted.
Proof. unfold slice. break_match; discriminate. Qed.

Lemma memcpy_within_fuel (dst src : list Z) (n : Z) :
  memcpy dst src n <> Err FuelExhausted.
Proof.
  unfold memcpy. apply bind_within_fuel; [apply slice_within_fuel|].
  intros bytes. break_match; discriminate.
Qed.

Lemma strlen_within_fuel (str : list Z) : strlen str <> Err FuelExhausted.
Proof.
  induction str as [|c str IH]; cbn [strlen]; [discriminate|].
  destruct (c =? 0); [discriminate|].
  apply bind_within_fuel; [exact IH|discriminate].
Qed.

Lemma _bit_get_within_fuel (bits index : Z) :
  _bit_get bits index <> Err FuelExhausted.
Proof. unfold _bit_get, shift_one. break_match; discriminate. Qed.

(** ** The option registry *)

(** [telnet_set_option] writes the bit that [telnet_get_option] reads, and
    no other bit. *)
Lemma telnet_set_option_get (s : telnet_session_t) (o : Z) (v : bool) :
  0 <= o < 64 ->
  exists s' : telnet_session_t,
    telnet_set_option (Some s) o v = Ok (Some s')
    /\ telnet_get_option (Some s') o = Ok v
    /\ forall o' : Z, 0 <= o' < 64 -> o' <> o ->
         telnet_get_option (Some s') o' = telnet_get_option (Some s) o'.
Proof.
  intros Ho. unfold telnet_set_option, _bit_set, _bit_clear.
  rewrite (shift_one_pow2 o Ho). cbn [bind].
  destruct v; cbn [bind]; eexists; (split; [reflexivity|]);
    cbn [telnet_get_option options set_options]; split.
  - rewrite _bit_get_testbit, testbit_bit_set by lia.
    rewrite Z.eqb_refl, orb_true_r. reflexivity.
  - intros o' Ho' Hne. rewrite !_bit_get_testbit, testbit_bit_set by lia.
    cmp_false (o =? o'). rewrite orb_false_r. reflexivity.
  - rewrite _bit_get_testbit, testbit_bit_clear by lia.
    rewrite Z.eqb_refl, andb_false_r. reflexivity.
  - intros o' Ho' Hne. rewrite !_bit_get_testbit, testbit_bit_clear by lia.
    cmp_false (o =? o'). rewrite andb_true_r. reflexivity.
Qed.

(** The loop of [telnet_supported_options] only reads. *)
Lemma supported_options_loop_reads (s : telnet_session_t) (rounds : nat) :
  forall opt : Z, 0 <= opt -> supported_options_loop rounds s opt = Ok tt.
Proof.
  induction rounds as [|rounds IH]; intros opt Hopt; cbn [supported_options_loop];
    [reflexivity|].
  destruct (Z.ltb_spec opt TELNET_OPTION_MAX) as [Hlt|Hge]; [|reflexivity].
  unfold TELNET_OPTION_MAX in Hlt.
  rewrite _bit_get_testbit by lia. cbn [bind]. apply IH. lia.
Qed.

(** [telnet_supported_options] leaves every session as it is, whatever the
    options it is given. *)
Lemma telnet_supported_options_identity (s : telnet_session_t)
  (option_ : Z) (args : list Z) :
  0 <= option_ ->
  telnet_supported_options (Some s) option_ args = Ok (Some s).
Proof.
  intros H. unfold telnet_supported_options.
  rewrite supported_options_loop_reads by exact H. reflexivity.
Qed.

(** C6. The bulk setter is to set the bit of every option it is given. The
    code reads bits and sets none: after
    [telnet_supported_options(&session, TELNET_OPTION_BINARY,
    TELNET_OPTION_SUPPRESS_GO_AHEAD, TELNET_OPTION_MAX)] on a fresh session
    the session is what it was and both options still read unsupported. *)
Theorem telnet_supported_options_sets_nothing :
  telnet_supported_options (Some fresh_session) TELNET_OPTION_BINARY
    [TELNET_OPTION_SUPPRESS_GO_AHEAD; TELNET_OPTION_MAX]
  = Ok (Some fresh_session)
  /\ telnet_get_option (Some fresh_session) TELNET_OPTION_BINARY = Ok false
  /\ telnet_get_option (Some fresh_session) TELNET_OPTION_SUPPRESS_GO_AHEAD
     = Ok false.
Proof. repeat split; vm_compute; reflexivity. Qed.

(** ** Serialization of packets *)

Section PacketWriter.

Context {U : Type}.

(** What [telnet_write_packet] hands to the writer, in its one call: the
    wire format without the doubling of IAC in the data. The packet has to
    hold no more data than its array has room for. *)
Lemma telnet_write_packet_once (s : telnet_session_t) (p : telnet_packet_t)
  (writer : telnet_writer_t U) (w : world U) :
  0 <= subnegotiation_length p <= len (subnegotiation_data p) ->
  len (subnegotiation_data p) <= SUBNEGOTIATION_CAPACITY ->
  telnet_write_packet (Some s) (Some p) (Some writer) w
  = Ok (call_writer writer s
          ([TELNET_IAC; command p] ++
           (if (command p =? TELNET_DO) || (command p =? TELNET_DONT)
               || (command p =? TELNET_WILL) || (command p =? TELNET_WONT)
            then [option_ p]
            else if command p =? TELNET_SB then
              [option_ p; subnegotiation_type p]
              ++ take (Z.to_nat (subnegotiation_length p)) (subnegotiation_data p)
              ++ [TELNET_IAC; TELNET_SE]
            else [])) w).
Proof.
  intros Hlen Hcap. unfold telnet_write_packet.
  destruct ((command p =? TELNET_DO) || (command p =? TELNET_DONT)
            || (command p =? TELNET_WILL) || (command p =? TELNET_WONT));
    [reflexivity|].
  destruct (command p =? TELNET_SB); [|cbn [bind]; rewrite app_nil_r; reflexivity].
  unfold slice.
  cmp_true (0 <=? 0). cmp_true (0 <=? subnegotiation_length p).
  cmp_true (0 + subnegotiation_length p <=? len (subnegotiation_data p)).
  cbn [andb bind]. change (Z.to_nat 0) with 0%nat. rewrite drop_0.
  unfold SUBNEGOTIATION_CAPACITY in Hcap.
  rewrite len_app, !len_cons, len_nil. unfold WRITE_PACKET_BUFFER.
  cmp_true (0 + 1 + 1 + (0 + 1 + 1) + subnegotiation_length p + 2 <=? 80).
  cbn [bind]. rewrite <- !app_assoc. reflexivity.
Qed.

(** When the data hold no IAC, this is the wire format. *)
Lemma escape_without_iac (d : list Z) :
  Forall (fun c => c <> TELNET_IAC) d -> escape d = d.
Proof.
  induction 1 as [|c d Hc _ IH]; [reflexivity|].
  unfold escape in *. cbn [flat_map]. rewrite IH.
  cmp_false (c =? TELNET_IAC). reflexivity.
Qed.

Lemma telnet_write_packet_wire_format (s : telnet_session_t)
  (p : telnet_packet_t) (writer : telnet_writer_t U) (w : world U) :
  0 <= subnegotiation_length p <= len (subnegotiation_data p) ->
  len (subnegotiation_data p) <= SUBNEGOTIATION_CAPACITY ->
  Forall (fun c => c <> TELNET_IAC)
    (take (Z.to_nat (subnegotiation_length p)) (subnegotiation_data p)) ->
  telnet_write_packet (Some s) (Some p) (Some writer) w
  = Ok (call_writer writer s (wire_format p) w).
Proof.
  intros Hlen Hcap Hplain.
  rewrite telnet_write_packet_once by assumption.
  unfold wire_format. rewrite (escape_without_iac _ Hplain). reflexivity.
Qed.

(** The replies of [_handle_incomming_packet] as [telnet_write_packet]
    serializes them. *)
Lemma write_negotiation (s : telnet_session_t) (writer : telnet_writer_t U)
  (cmd o : Z) (w : world U) :
  cmd = TELNET_DO \/ cmd = TELNET_DONT \/ cmd = TELNET_WILL \/ cmd = TELNET_WONT ->
  telnet_write_packet (Some s)
    (Some (set_option_ o (set_command cmd default_packet))) (Some writer) w
  = Ok (call_writer writer s [TELNET_IAC; cmd; o] w).
Proof. intros [->|[->|[->| ->]]]; reflexivity. Qed.

Lemma write_canned_reply (s : telnet_session_t) (writer : telnet_writer_t U)
  (o : Z) (str : list Z) (w : world U) :
  terminated str = true ->
  len (c_string str) <= SUBNEGOTIATION_CAPACITY ->
  (let response_packet := set_command TELNET_SB default_packet in
   let response_packet := set_option_ o response_packet in
   let response_packet := set_subnegotiation_type TELNET_SE_IS response_packet in
   let* n := strlen str in
   let* bytes := memcpy (subnegotiation_data response_packet) str n in
   let response_packet := set_subnegotiation n bytes response_packet in
   telnet_write_packet (Some s) (Some response_packet) (Some writer) w)
  = Ok (call_writer writer s
          ([TELNET_IAC; TELNET_SB; o; TELNET_SE_IS] ++ c_string str
           ++ [TELNET_IAC; TELNET_SE]) w).
Proof.
  intros Hterm Hfits. cbv zeta.
  rewrite (strlen_c_string _ Hterm). cbn [bind].
  unfold memcpy. rewrite slice_c_string. cbn [bind].
  change (len (subnegotiation_data
                 (set_subnegotiation_type TELNET_SE_IS
                    (set_option_ o (set_command TELNET_SB default_packet)))))
    with SUBNEGOTIATION_CAPACITY.
  cmp_true (len (c_string str) <=? SUBNEGOTIATION_CAPACITY). cbn [bind].
  pose proof (len_nonneg (c_string str)) as Hnonneg.
  rewrite telnet_write_packet_once.
  - cbn [command option_ subnegotiation_type subnegotiation_length
           subnegotiation_data set_subnegotiation set_subnegotiation_type
           set_option_ set_command].
    change ((TELNET_SB =? TELNET_DO) || (TELNET_SB =? TELNET_DONT)
            || (TELNET_SB =? TELNET_WILL) || (TELNET_SB =? TELNET_WONT))
      with false.
    change (TELNET_SB =? TELNET_SB) with true. cbv iota.
    rewrite to_nat_len, take_app_length. reflexivity.
  - cbn [subnegotiation_length subnegotiation_data set_subnegotiation].
    rewrite len_app. pose proof (len_nonneg
      (drop (Z.to_nat (len (c_string str)))
         (subnegotiation_data
            (set_subnegotiation_type TELNET_SE_IS
               (set_option_ o (set_command TELNET_SB default_packet)))))).
    lia.
  - cbn [subnegotiation_length subnegotiation_data set_subnegotiation].
    rewrite len_app. unfold len at 2. rewrite length_drop, to_nat_len.
    cbn [subnegotiation_data set_subnegotiation_type set_option_ set_command
           default_packet].
    rewrite length_replicate.
    unfold SUBNEGOTIATION_CAPACITY in *. unfold len in *. lia.
Qed.

End PacketWriter.

(** C8. Packet serialization asks for IAC doubled inside the subnegotiation
    data. The code copies the data as they are: for the SB packet of option
    24, type IS, with the one data byte IAC, the writer is called once with
    IAC SB 24 0 IAC IAC SE, one IAC short of the wire format
    IAC SB 24 0 IAC IAC IAC SE. The reader of this library, which undoes
    the doubling, takes the bytes written for an unfinished subnegotiation
    and dispatches nothing. *)
Theorem telnet_write_packet_does_not_escape :
  let p := set_subnegotiation 1
             (<[0%nat := TELNET_IAC]> (subnegotiation_data default_packet))
             (set_option_ 24 (set_command TELNET_SB default_packet)) in
  telnet_write_packet (Some fresh_session) (Some p) (Some discard) quiet
  = Ok {| host := tt; trace := [Written [255; 250; 24; 0; 255; 255; 240]] |}
  /\ wire_format p = [255; 250; 24; 0; 255; 255; 255; 240]
  /\ exists r : read_result,
       telnet_read (Some fresh_session) (Some [255; 250; 24; 0; 255; 255; 240]) 7
         None (Some discard) quiet = Ok r
       /\ dispatched (trace (rr_world r)) = []
       /\ option_map state (rr_session r)
          = Some TELNET_STATE_IN_SUBNEGOTIATION_VALUE.
Proof.
  cbv zeta. split; [vm_compute; reflexivity|].
  split; [vm_compute; reflexivity|].
  eexists. split; [vm_compute; reflexivity|].
  split; reflexivity.
Qed.

(** ** Dispatch and the automatic-response policy *)

Section Dispatch.

Context {U : Type}.

(** A callback that returns false ends the dispatch: the world is what the
    callback left, with the dispatch logged and no call of the writer. *)
Lemma handle_suppressed (s : telnet_session_t)
  (writer : option (telnet_writer_t U)) (cb : telnet_packet_callback_t U)
  (w : world U) :
  fst (cb s (packet s) (host w)) = false ->
  _handle_incomming_packet (Some s) writer (Some cb) w
  = Ok {| host := snd (cb s (packet s) (host w));
          trace := trace w ++ [Dispatched (packet s)] |}.
Proof.
  intros Hdeny. unfold _handle_incomming_packet, call_callback, log.
  cbn [host trace].
  destruct (cb s (packet s) (host w)) as [b u]. cbn [fst snd] in *.
  subst b. reflexivity.
Qed.

Lemma handle_default (s : telnet_session_t)
  (writer : option (telnet_writer_t U)) (w : world U) :
  _handle_incomming_packet (Some s) writer None w
  = _handle_incomming_packet (Some s) writer (Some allow_all) w.
Proof.
  unfold _handle_incomming_packet, call_callback, allow_all, log.
  cbn [host trace]. reflexivity.
Qed.

(** C4, amended. For every completed packet whose automatic reply is not
    suppressed and whose option lies inside the table that the reply
    consults (the 64 bits of the bitset for WILL and DO; the
    [TELNET_OPTION_MAX] entries of canned replies for SB with SEND, a
    registered reply being a NUL-terminated string of at most 64 bytes),
    the dispatch emits exactly the reply of the negotiation table, in one
    call of the writer: for WILL, DO if the bit of the option is set and
    DONT if not; for WONT, DONT; for DO, WILL if the bit is set and WONT if
    not; for DONT, WONT; for SB with SEND and a registered reply, SB option
    IS with the reply bytes; and nothing for any other packet. *)
Theorem auto_response_policy (s : telnet_session_t)
  (writer : telnet_writer_t U) (callback : option (telnet_packet_callback_t U))
  (w : world U) :
  within_tables s (packet s) = true ->
  replies_by_table s writer callback w.
Proof.
  intros Hin Hallow.
  unfold _handle_incomming_packet, verdict in *.
  set (w1 := log (Dispatched (packet s)) w) in *.
  assert (Hswitch : forall w2 : world U,
    (if command (packet s) =? TELNET_WILL then
       let* supported := telnet_get_option (Some s) (option_ (packet s)) in
       telnet_write_packet (Some s)
         (Some (set_option_ (option_ (packet s))
                  (set_command (if supported then TELNET_DO else TELNET_DONT)
                     default_packet))) (Some writer) w2
     else if command (packet s) =? TELNET_WONT then
       telnet_write_packet (Some s)
         (Some (set_option_ (option_ (packet s))
                  (set_command TELNET_DONT default_packet))) (Some writer) w2
     else if command (packet s) =? TELNET_DO then
       let* supported := telnet_get_option (Some s) (option_ (packet s)) in
       telnet_write_packet (Some s)
         (Some (set_option_ (option_ (packet s))
                  (set_command (if supported then TELNET_WILL else TELNET_WONT)
                     default_packet))) (Some writer) w2
     else if command (packet s) =? TELNET_DONT then
       telnet_write_packet (Some s)
         (Some (set_option_ (option_ (packet s))
                  (set_command TELNET_WONT default_packet))) (Some writer) w2
     else if command (packet s) =? TELNET_SB then
       if subnegotiation_type (packet s) =? TELNET_SE_SEND then
         let* subnegotiation_option :=
           telnet_get_subnegotiation_option (Some s) (option_ (packet s)) in
         match subnegotiation_option with
         | Some reply =>
             let response_packet := set_command TELNET_SB default_packet in
             let response_packet :=
               set_option_ (option_ (packet s)) response_packet in
             let response_packet :=
               set_subnegotiation_type TELNET_SE_IS response_packet in
             let* n := strlen reply in
             let* bytes := memcpy (subnegotiation_data response_packet) reply n in
             let response_packet := set_subnegotiation n bytes response_packet in
             telnet_write_packet (Some s) (Some response_packet) (Some writer) w2
         | None => Ok w2
         end
       else Ok w2
     else Ok w2)
    = Ok (reply_sent writer s w2)).
  { intros w2. unfold reply_sent, negotiation_table.
    unfold within_tables in Hin.
    destruct (command (packet s) =? TELNET_WILL) eqn:HWILL.
    { cbn [orb] in Hin. apply andb_prop in Hin as [H0 H64].
      apply Z.leb_le in H0. apply Z.ltb_lt in H64.
      cbn [telnet_get_option]. rewrite _bit_get_testbit by lia. cbn [bind].
      destruct (Z.testbit (options s) (option_ (packet s)));
        apply write_negotiation; auto. }
    destruct (command (packet s) =? TELNET_WONT) eqn:HWONT.
    { apply write_negotiation; auto. }
    destruct (command (packet s) =? TELNET_DO) eqn:HDO.
    { cbn [orb] in Hin. apply andb_prop in Hin as [H0 H64].
      apply Z.leb_le in H0. apply Z.ltb_lt in H64.
      cbn [telnet_get_option]. rewrite _bit_get_testbit by lia. cbn [bind].
      destruct (Z.testbit (options s) (option_ (packet s)));
        apply write_negotiation; auto. }
    destruct (command (packet s) =? TELNET_DONT) eqn:HDONT.
    { apply write_negotiation; auto. }
    destruct (command (packet s) =? TELNET_SB) eqn:HSB; [|reflexivity].
    destruct (subnegotiation_type (packet s) =? TELNET_SE_SEND) eqn:HSEND;
      [|reflexivity].
    cbn [orb andb] in Hin.
    apply andb_prop in Hin as [Hin Hreply].
    apply andb_prop in Hin as [Hin H50].
    apply andb_prop in Hin as [Hsize H0].
    apply Z.eqb_eq in Hsize. apply Z.leb_le in H0. apply Z.ltb_lt in H50.
    cbn [telnet_get_subnegotiation_option].
    destruct (array_get_lookup (subnegotiation_options s) (option_ (packet s)))
      as (entry & Hentry & ->); [lia|].
    cbn [bind]. unfold registered_reply.
    cmp_true (0 <=? option_ (packet s)).
    rewrite Hentry in Hreply |- *.
    destruct entry as [str|]; [|reflexivity].
    apply andb_prop in Hreply as [Hterm Hfits]. apply Z.leb_le in Hfits.
    apply (write_canned_reply s writer (option_ (packet s)) str w2 Hterm Hfits). }
  destruct callback as [cb|].
  - destruct (call_callback cb s (packet s) w1) as [b w2].
    cbn [fst snd] in *. subst b. cbn [negb]. apply Hswitch.
  - cbn [fst snd negb] in *. apply Hswitch.
Qed.

End Dispatch.

(** C4, as the claim states it, fails for the options that lie outside the
    tables. WILL 64 reads the bitset with a shift by 64, and SB 50 SEND
    reads the table of canned replies past its last entry; neither has a
    defined result, whereas the table answers DONT 64 (the bitset has no bit
    64) and nothing (no reply is registered for option 50). A registered
    reply of 65 bytes is copied past the end of the 64 bytes of the reply
    packet's data, whereas the table answers with the 65 bytes. *)
Lemma auto_response_policy_outside_tables :
  (negotiation_table will_64_session (packet will_64_session)
   = Some [TELNET_IAC; TELNET_DONT; 64]
   /\ _handle_incomming_packet (Some will_64_session) (Some discard) None quiet
      = Err ShiftTooFar
   /\ ~ replies_by_table will_64_session discard None quiet)
  /\ (negotiation_table send_50_session (packet send_50_session) = None
      /\ _handle_incomming_packet (Some send_50_session) (Some discard) None quiet
         = Err ReadOutOfBounds
      /\ ~ replies_by_table send_50_session discard None quiet)
  /\ (negotiation_table long_reply_session (packet long_reply_session)
      = Some ([TELNET_IAC; TELNET_SB; 24; TELNET_SE_IS] ++ replicate 65 65
              ++ [TELNET_IAC; TELNET_SE])
      /\ _handle_incomming_packet (Some long_reply_session) (Some discard)
           None quiet
         = Err WriteOutOfBounds
      /\ ~ replies_by_table long_reply_session discard None quiet).
Proof.
  repeat split.
  - intros H. specialize (H eq_refl). vm_compute in H. discriminate.
  - intros H. specialize (H eq_refl). vm_compute in H. discriminate.
  - intros H. specialize (H eq_refl). vm_compute in H. discriminate.
Qed.

(** The amended policy at work: SB TERMINAL-TYPE SEND on a session with the
    canned reply "xterm" is answered by SB TERMINAL-TYPE IS xterm. *)
Lemma auto_response_policy_witness :
  within_tables terminal_type_session (packet terminal_type_session) = true
  /\ _handle_incomming_packet (Some terminal_type_session) (Some discard)
       None quiet
     = Ok {| host := tt;
             trace := [Dispatched (packet terminal_type_session);
                       Written [255; 250; 24; 0; 120; 116; 101; 114; 109;
                                255; 240]] |}.
Proof.
  split; [reflexivity|].
  exact (auto_response_policy terminal_type_session discard None quiet
           eq_refl eq_refl).
Defined.

(** ** The loop of [telnet_read] computes [scan] *)

Section Reader.

Context {U : Type}.
Variable writer : option (telnet_writer_t U).
Variable callback : option (telnet_packet_callback_t U).

Lemma delete_character_middle (s : telnet_session_t) (w : world U)
  (pre : list Z) (c : Z) (rest tail : list Z) :
  _TELNET_DELETE_CHARACTER
    {| rs_session := s; rs_data := pre ++ c :: rest ++ tail;
       rs_new_length := len pre + 1 + len rest; rs_i := len pre;
       rs_world := w |}
  = Ok {| rs_session := s;
          rs_data := pre ++ rest ++ drop (length rest) (c :: rest ++ tail);
          rs_new_length := len pre + len rest;
          rs_i := size_wrap (len pre - 1);
          rs_world := w |}.
Proof.
  unfold _TELNET_DELETE_CHARACTER. cbn [rs_data rs_new_length rs_i].
  rewrite _delete_uint8_tacter_middle. reflexivity.
Qed.

(** One round of the loop, at index [len pre] of a buffer whose [len pre + 1
    + len rest] first bytes are live: the session and the world change as
    [feed] tells, and the byte either stays or is deleted. *)
Lemma read_body_feed (s : telnet_session_t) (w : world U)
  (pre : list Z) (c : Z) (rest tail : list Z) :
  read_body writer callback
    {| rs_session := s; rs_data := pre ++ c :: rest ++ tail;
       rs_new_length := len pre + 1 + len rest; rs_i := len pre;
       rs_world := w |}
  = let* r := feed writer callback s w c in
    Ok (after_round pre c rest tail r).
Proof.
  unfold read_body, feed.
  cbn [rs_data rs_i rs_session rs_world].
  rewrite array_get_middle. cbn [bind].
  destruct (state s) eqn:Hstate.
  all: repeat match goal with
         | |- context [if ?b then _ else _] => destruct b eqn:?
         end.
  all: unfold rs_state, rs_set_session, rs_handle, append_subnegotiation,
         rs_set_world, telnet_init_packet;
       cbn [rs_data rs_i rs_session rs_world rs_new_length bind].
  all: try rewrite delete_character_middle; cbn [bind];
       unfold rs_state, rs_set_session, rs_handle, append_subnegotiation,
         rs_set_world;
       cbn [rs_data rs_i rs_session rs_world rs_new_length bind].
  all: try reflexivity.
  all: repeat match goal with
         | |- context [_handle_incomming_packet ?a ?b ?c ?d] =>
             destruct (_handle_incomming_packet a b c d); cbn [bind]
         | |- context [packet_append ?a ?b] =>
             destruct (packet_append a b); cbn [bind]
         end.
  all: cbn [rs_data rs_i rs_session rs_world rs_new_length bind];
       try rewrite delete_character_middle; try reflexivity.
Qed.

Lemma read_loop_round (fuel : nat) (st : read_state) :
  read_loop (S fuel) writer callback st
  = if rs_i st <? rs_new_length st then
      let* st := read_body writer callback st in
      read_loop fuel writer callback (rs_set_i (size_wrap (rs_i st + 1)) st)
    else Ok st.
Proof. reflexivity. Qed.

(** The loop from index [len pre] on, over the live bytes [input]: it ends
    within [S (length input)] tests with the bytes that [scan] keeps moved
    up against [pre], or with the error of [scan]. What follows the kept
    bytes, [stale], is of no concern to the caller. *)
Lemma read_loop_scan (input : list Z) :
  forall (pre tail : list Z) (s : telnet_session_t) (w : world U),
    len pre + len input < 2 ^ SIZE_BITS ->
    match scan writer callback s w input with
    | Ok r =>
        exists stale : list Z,
          (length (snd r) + length stale = length input + length tail)%nat /\
          read_loop (S (length input)) writer callback
            {| rs_session := s; rs_data := pre ++ input ++ tail;
               rs_new_length := len pre + len input; rs_i := len pre;
               rs_world := w |}
          = Ok {| rs_session := fst (fst r);
                  rs_data := pre ++ snd r ++ stale;
                  rs_new_length := len pre + len (snd r);
                  rs_i := len pre + len (snd r);
                  rs_world := snd (fst r) |}
    | Err e =>
        read_loop (S (length input)) writer callback
          {| rs_session := s; rs_data := pre ++ input ++ tail;
             rs_new_length := len pre + len input; rs_i := len pre;
             rs_world := w |}
        = Err e
    end.
Proof.
  induction input as [|c rest IH]; intros pre tail s w Hsize.
  - cbn [scan read_loop length rs_i rs_new_length fst snd].
    exists tail. split; [reflexivity|].
    rewrite len_nil, Z.add_0_r, Z.ltb_irrefl. reflexivity.
  - pose proof (len_nonneg pre) as Hpre. pose proof (len_nonneg rest) as Hrest.
    rewrite len_cons in Hsize.
    cbn [scan length]. rewrite read_loop_round. cbn [rs_i rs_new_length].
    change ((c :: rest) ++ tail) with (c :: rest ++ tail).
    rewrite len_cons.
    cmp_true (len pre <? len pre + (len rest + 1)).
    replace (len pre + (len rest + 1)) with (len pre + 1 + len rest) by lia.
    rewrite read_body_feed.
    destruct (feed writer callback s w c) as [[[s1 w1] keep]|e];
      cbn [bind fst snd]; [|reflexivity].
    unfold after_round. cbn [snd fst].
    destruct keep; unfold rs_set_i;
      cbn [rs_session rs_data rs_new_length rs_i rs_world].
    + rewrite size_wrap_small by lia.
      specialize (IH (pre ++ [c]) tail s1 w1).
      rewrite len_app, len_cons, len_nil in IH.
      rewrite <- app_assoc in IH. cbn [app] in IH.
      replace (len pre + (0 + 1)) with (len pre + 1) in IH by lia.
      specialize (IH ltac:(lia)).
      destruct (scan writer callback s1 w1 rest) as [[[s2 w2] kept]|e];
        cbn [bind fst snd] in *; [|exact IH].
      destruct IH as (stale & Hlen & Hloop).
      exists stale. split; [cbn [length]; lia|].
      rewrite Hloop. rewrite len_cons. rewrite <- !app_assoc. cbn [app].
      do 2 f_equal; lia.
    + rewrite size_wrap_pred_succ by lia.
      specialize (IH pre (drop (length rest) (c :: rest ++ tail)) s1 w1
                    ltac:(lia)).
      destruct (scan writer callback s1 w1 rest) as [[[s2 w2] kept]|e];
        cbn [bind fst snd] in *; [|exact IH].
      destruct IH as (stale & Hlen & Hloop).
      exists stale. split; [|exact Hloop].
      rewrite Hlen. rewrite length_drop. cbn [length].
      rewrite length_app. lia.
Qed.

(** [telnet_read] on a whole buffer: the loop ends within its fuel, the
    returned length counts the bytes [scan] keeps, and these bytes are the
    front of the buffer, in their order. *)
Lemma telnet_read_scan (s : telnet_session_t) (d : list Z) (w : world U) :
  len d < 2 ^ SIZE_BITS ->
  match scan writer callback s w d with
  | Ok r =>
      exists stale : list Z,
        (length (snd r) + length stale = length d)%nat /\
        telnet_read (Some s) (Some d) (len d) callback writer w
        = Ok {| rr_return := len (snd r);
                rr_session := Some (fst (fst r));
                rr_data := Some (snd r ++ stale);
                rr_world := snd (fst r) |}
  | Err e => telnet_read (Some s) (Some d) (len d) callback writer w = Err e
  end.
Proof.
  intros Hsize. unfold telnet_read.
  destruct d as [|c d'].
  - cbn. exists []. split; reflexivity.
  - pose proof (len_nonneg d') as Hd'.
    assert (Hne : len (c :: d') <> 0) by (rewrite len_cons; lia).
    rewrite (proj2 (Z.eqb_neq _ _) Hne).
    rewrite to_nat_len.
    pose proof (read_loop_scan (c :: d') [] [] s w) as H.
    rewrite len_nil, Z.add_0_l, app_nil_r in H. cbn [app] in H.
    specialize (H Hsize).
    destruct (scan writer callback s w (c :: d')) as [[[s' w'] kept]|e];
      cbn [fst snd] in *.
    + destruct H as (stale & Hlen & Hloop).
      exists stale. split; [cbn [length] in *; lia|].
      rewrite Hloop. cbn [bind rs_new_length rs_session rs_data rs_world].
      rewrite Z.add_0_l. reflexivity.
    + rewrite H. reflexivity.
Qed.

(** What the caller observes of [telnet_read] is what [scan] computes. *)
Lemma read_outcome_scan (s : telnet_session_t) (d : list Z) (w : world U) :
  len d < 2 ^ SIZE_BITS ->
  read_outcome (telnet_read (Some s) (Some d) (len d) callback writer w)
  = let* r := scan writer callback s w d in
    Ok (Some (fst (fst r)), snd (fst r), snd r).
Proof.
  intros Hsize. pose proof (telnet_read_scan s d w Hsize) as H.
  destruct (scan writer callback s w d) as [[[s' w'] kept]|e];
    cbn [fst snd bind] in *.
  - destruct H as (stale & _ & ->).
    unfold read_outcome, retained.
    cbn [bind rr_data rr_return rr_session rr_world].
    rewrite to_nat_len, take_app_length. reflexivity.
  - rewrite H. reflexivity.
Qed.

Lemma telnet_write_packet_within_fuel (s : option telnet_session_t)
  (p : option telnet_packet_t) (w : world U) :
  telnet_write_packet s p writer w <> Err FuelExhausted.
Proof.
  unfold telnet_write_packet.
  destruct s as [s|], p as [p|], writer as [wr|]; try discriminate.
  apply bind_within_fuel; [|discriminate].
  destruct ((command p =? TELNET_DO) || (command p =? TELNET_DONT)
            || (command p =? TELNET_WILL) || (command p =? TELNET_WONT));
    [discriminate|].
  destruct (command p =? TELNET_SB); [|discriminate].
  apply bind_within_fuel; [apply slice_within_fuel|].
  intros bytes. break_match; discriminate.
Qed.

Lemma _handle_incomming_packet_within_fuel (s : option telnet_session_t)
  (w : world U) :
  _handle_incomming_packet s writer callback w <> Err FuelExhausted.
Proof.
  unfold _handle_incomming_packet. destruct s as [s|]; [|discriminate].
  destruct (match callback with
            | Some cb => call_callback cb s (packet s)
                           (log (Dispatched (packet s)) w)
            | None => (true, log (Dispatched (packet s)) w)
            end) as [b w1].
  destruct b; cbn [negb]; [|discriminate].
  repeat match goal with
    | |- (if ?b then _ else _) <> _ => destruct b
    | |- bind _ _ <> _ => apply bind_within_fuel; [|intros ?]
    | |- match ?x with _ => _ end <> _ => destruct x
    end;
    first [ apply telnet_write_packet_within_fuel
          | apply _bit_get_within_fuel
          | apply array_get_within_fuel
          | apply strlen_within_fuel
          | apply memcpy_within_fuel
          | discriminate ].
Qed.

Lemma packet_append_within_fuel (c : Z) (s : telnet_session_t) :
  packet_append c s <> Err FuelExhausted.
Proof.
  unfold packet_append.
  apply bind_within_fuel; [apply array_set_within_fuel|discriminate].
Qed.

Lemma feed_within_fuel (s : telnet_session_t) (w : world U) (c : Z) :
  feed writer callback s w c <> Err FuelExhausted.
Proof.
  unfold feed.
  destruct (state s);
    repeat match goal with
      | |- (if ?b then _ else _) <> _ => destruct b
      | |- bind _ _ <> _ => apply bind_within_fuel; [|intros ?]
      end;
    first [ apply _handle_incomming_packet_within_fuel
          | apply packet_append_within_fuel
          | discriminate ].
Qed.

Lemma scan_within_fuel (input : list Z) :
  forall (s : telnet_session_t) (w : world U),
    scan writer callback s w input <> Err FuelExhausted.
Proof.
  induction input as [|c input IH]; intros s w; cbn [scan]; [discriminate|].
  apply bind_within_fuel; [apply feed_within_fuel|]. intros r.
  apply bind_within_fuel; [apply IH|discriminate].
Qed.

(** The fuel given by [telnet_read] suffices for every buffer. *)
Lemma telnet_read_within_fuel (s : telnet_session_t) (d : list Z) (w : world U) :
  len d < 2 ^ SIZE_BITS ->
  telnet_read (Some s) (Some d) (len d) callback writer w <> Err FuelExhausted.
Proof.
  intros Hsize. pose proof (telnet_read_scan s d w Hsize) as H.
  pose proof (scan_within_fuel d s w) as Hscan.
  destruct (scan writer callback s w d) as [r|e].
  - destruct H as (stale & _ & ->). discriminate.
  - rewrite H. intros Heq. apply Hscan. inversion Heq. reflexivity.
Qed.

(** [scan] carries all it knows in the session: an input may be cut
    anywhere. *)
Lemma scan_app (a b : list Z) :
  forall (s : telnet_session_t) (w : world U),
    scan writer callback s w (a ++ b)
    = let* r1 := scan writer callback s w a in
      let* r2 := scan writer callback (fst (fst r1)) (snd (fst r1)) b in
      Ok (fst (fst r2), snd (fst r2), snd r1 ++ snd r2).
Proof.
  induction a as [|c a IH]; intros s w.
  - cbn [app scan bind fst snd].
    destruct (scan writer callback s w b) as [[[s2 w2] k2]|e]; reflexivity.
  - cbn [app scan].
    destruct (feed writer callback s w c) as [[[s1 w1] keep]|e];
      cbn [bind fst snd]; [|reflexivity].
    rewrite IH.
    destruct (scan writer callback s1 w1 a) as [[[s2 w2] k2]|e];
      cbn [bind fst snd]; [|reflexivity].
    destruct (scan writer callback s2 w2 b) as [[[s3 w3] k3]|e];
      cbn [bind fst snd]; [|reflexivity].
    destruct keep; reflexivity.
Qed.

(** Reading [a] and then [b] is reading [a ++ b], from any session. *)
Lemma telnet_read_app (s : telnet_session_t) (a b : list Z) (w : world U) :
  len (a ++ b) < 2 ^ SIZE_BITS ->
  read_outcome (telnet_read (Some s) (Some (a ++ b)) (len (a ++ b))
                  callback writer w)
  = let* o1 := read_outcome (telnet_read (Some s) (Some a) (len a)
                               callback writer w) in
    let* o2 := read_outcome (telnet_read (fst (fst o1)) (Some b) (len b)
                               callback writer (snd (fst o1))) in
    Ok (fst (fst o2), snd (fst o2), snd o1 ++ snd o2).
Proof.
  intros Hsize.
  pose proof (len_nonneg a). pose proof (len_nonneg b).
  rewrite len_app in Hsize.
  rewrite !read_outcome_scan by (rewrite ?len_app; lia).
  rewrite scan_app.
  destruct (scan writer callback s w a) as [[[s1 w1] k1]|e];
    cbn [bind fst snd]; [|reflexivity].
  rewrite read_outcome_scan by lia.
  destruct (scan writer callback s1 w1 b) as [[[s2 w2] k2]|e];
    cbn [bind fst snd]; reflexivity.
Qed.

End Reader.

(** ** The packet that the reader completes for a subnegotiation *)

(** After SB the reader goes to [TELNET_STATE_IN_SUBNEGOTIATION_TYPE]: the
    byte after SB becomes the type of the packet, the option of the packet
    stays what it was, and the bytes from the second on are data. So
    IAC SB TERMINAL-TYPE SEND IAC SE completes the packet SB with option
    BINARY, type 24 and the one data byte 1, which the policy leaves
    without reply, although "xterm" is registered for TERMINAL-TYPE. *)
Lemma telnet_read_subnegotiation_fields :
  exists r : read_result,
    telnet_read (Some xterm_session)
      (Some [TELNET_IAC; TELNET_SB; TELNET_OPTION_TERMINAL_TYPE; TELNET_SE_SEND;
             TELNET_IAC; TELNET_SE]) 6
      None (Some discard) quiet = Ok r
    /\ map (fun p => (command p, option_ p, subnegotiation_type p,
                      take (Z.to_nat (subnegotiation_length p))
                        (subnegotiation_data p)))
         (dispatched (trace (rr_world r)))
       = [(TELNET_SB, TELNET_OPTION_BINARY, 24, [1])]
    /\ written (trace (rr_world r)) = [].
Proof.
  eexists. split; [vm_compute; reflexivity|].
  split; reflexivity.
Qed.

(** ** Compaction *)

(** C2. Compaction correctness asks that the bytes left at the front of the
    buffer are exactly the application payload. The code departs from it
    when an IAC inside a subnegotiation is followed by a byte other than IAC
    and SE: the input IAC SB 24 0 IAC WILL 1 carries no payload byte, and
    [telnet_read] returns 1 with the command byte WILL left at the front of
    the buffer; the byte after it, 1, is taken for a command. *)
Theorem telnet_read_leaves_command_byte :
  exists r : read_result,
    telnet_read (Some fresh_session)
      (Some [TELNET_IAC; TELNET_SB; 24; 0; TELNET_IAC; TELNET_WILL; 1]) 7
      None (Some discard) quiet = Ok r
    /\ rr_return r = 1
    /\ retained r = [TELNET_WILL]
    /\ map command (dispatched (trace (rr_world r))) = [TELNET_SB; 1].
Proof.
  eexists. split; [vm_compute; reflexivity|].
  repeat split; reflexivity.
Qed.

(** ** Bounds of the subnegotiation data *)

(** An append to a full [subnegotiation_data] stores past its end. *)
Lemma packet_append_when_full (c : Z) (s : telnet_session_t) :
  len (subnegotiation_data (packet s)) <= subnegotiation_length (packet s) ->
  packet_append c s = Err WriteOutOfBounds.
Proof.
  intros H. unfold packet_append, array_set.
  cmp_false (subnegotiation_length (packet s)
             <? len (subnegotiation_data (packet s))).
  rewrite andb_false_r. reflexivity.
Qed.

(** While it succeeds, an append adds one byte and keeps the size of the
    array. *)
Lemma packet_append_when_room (c : Z) (s s' : telnet_session_t) :
  packet_append c s = Ok s' ->
  subnegotiation_length (packet s) < len (subnegotiation_data (packet s))
  /\ len (subnegotiation_data (packet s'))
     = len (subnegotiation_data (packet s))
  /\ subnegotiation_data (packet s') !! Z.to_nat (subnegotiation_length (packet s))
     = Some c.
Proof.
  unfold packet_append, array_set.
  destruct (Z.leb_spec 0 (subnegotiation_length (packet s))) as [H0|H0];
    [|discriminate].
  destruct (Z.ltb_spec (subnegotiation_length (packet s))
              (len (subnegotiation_data (packet s)))) as [Hlt|Hge];
    [|discriminate].
  cbn [andb bind]. intros H. inversion H. subst s'.
  cbn [packet set_packet subnegotiation_data set_subnegotiation].
  split; [exact Hlt|]. split.
  - unfold len. rewrite length_insert. reflexivity.
  - apply list_lookup_insert_eq. unfold len in Hlt. lia.
Qed.

(** C3. Bounds safety asks for a check of [subnegotiation_length] against the
    64 bytes of [subnegotiation_data] before each append. The code has no
    such check: on IAC SB 24 0, 65 bytes of data and IAC SE, an append stores
    past the end of the array. *)
Theorem telnet_read_overflows_subnegotiation_data :
  telnet_read (Some fresh_session)
    (Some ([TELNET_IAC; TELNET_SB; 24; 0] ++ replicate 65 65
           ++ [TELNET_IAC; TELNET_SE])) 71
    None (Some discard) quiet
  = Err WriteOutOfBounds.
Proof. vm_compute. reflexivity. Qed.

(** ** Life cycle of the packet *)

(** C5. The packet life cycle asks that the packet is back at its defaults
    whenever a new control sequence begins. The code resets it only after an
    unterminated subnegotiation: after IAC SB 24 0 65 IAC SE and the IAC of
    the next sequence the packet still is the SB packet with its 2 bytes,
    and the packet dispatched for the second subnegotiation IAC SB 24 0 66
    IAC SE counts 4 bytes, those of the first one included. *)
Theorem telnet_read_keeps_packet_between_cycles :
  (exists r : read_result,
     telnet_read (Some fresh_session)
       (Some [TELNET_IAC; TELNET_SB; 24; 0; 65; TELNET_IAC; TELNET_SE;
              TELNET_IAC]) 8
       None (Some discard) quiet = Ok r
     /\ option_map state (rr_session r) = Some TELNET_STATE_IN_COMMAND
     /\ option_map (fun s => command (packet s)) (rr_session r) = Some TELNET_SB
     /\ option_map (fun s => subnegotiation_length (packet s)) (rr_session r)
        = Some 2)
  /\ (exists r : read_result,
        telnet_read (Some fresh_session)
          (Some [TELNET_IAC; TELNET_SB; 24; 0; 65; TELNET_IAC; TELNET_SE;
                 TELNET_IAC; TELNET_SB; 24; 0; 66; TELNET_IAC; TELNET_SE]) 14
          None (Some discard) quiet = Ok r
        /\ map (fun p => (subnegotiation_length p,
                          take (Z.to_nat (subnegotiation_length p))
                            (subnegotiation_data p)))
             (dispatched (trace (rr_world r)))
           = [(2, [0; 65]); (4, [0; 65; 0; 66])]).
Proof.
  split.
  - eexists. split; [vm_compute; reflexivity|].
    repeat split; reflexivity.
  - eexists. split; [vm_compute; reflexivity|].
    reflexivity.
Qed.

(** ** Suppression by the callback *)

Section Suppressing.

Context {U : Type}.
Variable writer : option (telnet_writer_t U).
Variable cb : telnet_packet_callback_t U.
Hypothesis cb_denies : forall s p u, fst (cb s p u) = false.

(** With a callback that always returns false no round of the reader calls
    the writer. *)
Lemma feed_suppressed (s : telnet_session_t) (w : world U) (c : Z)
  (r : telnet_session_t * world U * bool) :
  feed writer (Some cb) s w c = Ok r ->
  written (trace (snd (fst r))) = written (trace w).
Proof.
  unfold feed.
  destruct (state s);
    repeat match goal with
      | |- context [if ?b then _ else _] => destruct b
      end;
    rewrite ?handle_suppressed by apply cb_denies;
    repeat match goal with
      | |- context [packet_append ?a ?b] => destruct (packet_append a b)
      end;
    cbn [bind]; intros H; inversion H; subst; cbn [fst snd trace];
    rewrite ?written_app; cbn [written]; rewrite ?app_nil_r; reflexivity.
Qed.

Lemma scan_suppressed (input : list Z) :
  forall (s : telnet_session_t) (w : world U)
    (r : telnet_session_t * world U * list Z),
    scan writer (Some cb) s w input = Ok r ->
    written (trace (snd (fst r))) = written (trace w).
Proof.
  induction input as [|c input IH]; intros s w r; cbn [scan].
  - intros H. inversion H. reflexivity.
  - destruct (feed writer (Some cb) s w c) as [r1|e] eqn:Hfeed;
      cbn [bind]; [|discriminate].
    destruct (scan writer (Some cb) (fst (fst r1)) (snd (fst r1)) input)
      as [r2|e] eqn:Hscan; cbn [bind]; [|discriminate].
    intros H. inversion H. subst r. cbn [fst snd].
    rewrite (IH _ _ _ Hscan). apply (feed_suppressed _ _ _ _ Hfeed).
Qed.

Lemma telnet_read_suppressed (s : telnet_session_t) (d : list Z) (w : world U)
  (r : read_result) :
  len d < 2 ^ SIZE_BITS ->
  telnet_read (Some s) (Some d) (len d) (Some cb) writer w = Ok r ->
  written (trace (rr_world r)) = written (trace w).
Proof.
  intros Hsize Hread.
  pose proof (telnet_read_scan writer (Some cb) s d w Hsize) as H.
  destruct (scan writer (Some cb) s w d) as [r'|e] eqn:Hscan.
  - destruct H as (stale & _ & Heq). rewrite Heq in Hread.
    inversion Hread. subst r. cbn [rr_world].
    apply (scan_suppressed _ _ _ _ Hscan).
  - rewrite H in Hread. discriminate.
Qed.

End Suppressing.

(** C7. When the callback is called with a completed packet and returns
    false, the dispatch of that packet calls the writer not once; so a
    [telnet_read] whose callback returns false throughout leaves the
    writer's log as it found it. Without a callback the dispatch proceeds
    as with a callback that returns true. *)
Theorem callback_suppression {U : Type} (s : telnet_session_t)
  (writer : option (telnet_writer_t U)) (w : world U) :
  (forall cb : telnet_packet_callback_t U,
     fst (cb s (packet s) (host w)) = false ->
     exists w' : world U,
       _handle_incomming_packet (Some s) writer (Some cb) w = Ok w'
       /\ written (trace w') = written (trace w))
  /\ (forall (cb : telnet_packet_callback_t U) (d : list Z) (r : read_result),
        (forall s' p u, fst (cb s' p u) = false) ->
        len d < 2 ^ SIZE_BITS ->
        telnet_read (Some s) (Some d) (len d) (Some cb) writer w = Ok r ->
        written (trace (rr_world r)) = written (trace w))
  /\ _handle_incomming_packet (Some s) writer None w
     = _handle_incomming_packet (Some s) writer (Some allow_all) w.
Proof.
  split; [|split].
  - intros cb Hdeny. eexists. split.
    + apply handle_suppressed. exact Hdeny.
    + cbn [trace]. rewrite written_app. cbn [written]. apply app_nil_r.
  - intros cb d r Hdeny Hsize Hread.
    exact (telnet_read_suppressed writer cb Hdeny s d w r Hsize Hread).
  - apply handle_default.
Qed.

(** DO 3 on a session that supports option 3 would be answered by WILL 3;
    the callback that returns false keeps the writer silent, at the
    dispatch and through a whole [telnet_read]. *)
Lemma callback_suppression_witness :
  let d := [104; TELNET_IAC; TELNET_DO; 3; 105] in
  (exists w' : world unit,
     _handle_incomming_packet (Some do_3_session) (Some discard)
       (Some deny_all) quiet = Ok w'
     /\ written (trace w') = written (trace quiet))
  /\ (exists r : read_result,
        telnet_read (Some do_3_session) (Some d) (len d) (Some deny_all)
          (Some discard) quiet = Ok r
        /\ written (trace (rr_world r)) = written (trace quiet)).
Proof.
  cbv zeta. split.
  - apply (proj1 (callback_suppression do_3_session (Some discard) quiet)
             deny_all).
    reflexivity.
  - eexists. split; [vm_compute; reflexivity|].
    apply (proj1 (proj2 (callback_suppression do_3_session (Some discard) quiet))
             deny_all [104; TELNET_IAC; TELNET_DO; 3; 105]).
    + intros s' p u. reflexivity.
    + reflexivity.
    + vm_compute. reflexivity.
Defined.

(** ** Chunked reads *)

(** C10. Reading a buffer [a] and then a buffer [b] with a freshly
    initialized session is reading [a ++ b] in one call: the session at the
    end, the world with its log of dispatched packets and of calls of the
    writer, and the concatenation of the retained bytes are the same, and an
    error of either is an error of the other. *)
Theorem chunked_read_equivalence {U : Type} (s0 : telnet_session_t)
  (a b : list Z) (callback : option (telnet_packet_callback_t U))
  (writer : option (telnet_writer_t U)) (w : world U) :
  len (a ++ b) < 2 ^ SIZE_BITS ->
  read_outcome (telnet_read (telnet_init (Some s0)) (Some (a ++ b))
                  (len (a ++ b)) callback writer w)
  = let* o1 := read_outcome (telnet_read (telnet_init (Some s0)) (Some a)
                               (len a) callback writer w) in
    let* o2 := read_outcome (telnet_read (fst (fst o1)) (Some b) (len b)
                               callback writer (snd (fst o1))) in
    Ok (fst (fst o2), snd (fst o2), snd o1 ++ snd o2).
Proof.
  intros Hsize. cbn [telnet_init telnet_init_packet].
  apply telnet_read_app. exact Hsize.
Qed.

(** The input h IAC DO 3 i, cut between DO and 3. *)
Lemma chunked_read_equivalence_witness :
  let a := [104; TELNET_IAC; TELNET_DO] in
  let b := [3; 105] in
  len (a ++ b) < 2 ^ SIZE_BITS
  /\ read_outcome (telnet_read (telnet_init (Some zeroed_session))
                     (Some (a ++ b)) (len (a ++ b)) None (Some discard) quiet)
     = let* o1 := read_outcome (telnet_read (telnet_init (Some zeroed_session))
                                  (Some a) (len a) None (Some discard) quiet) in
       let* o2 := read_outcome (telnet_read (fst (fst o1)) (Some b) (len b)
                                  None (Some discard) (snd (fst o1))) in
       Ok (fst (fst o2), snd (fst o2), snd o1 ++ snd o2).
Proof.
  cbv zeta. split; [reflexivity|].
  apply (chunked_read_equivalence zeroed_session
           [104; TELNET_IAC; TELNET_DO] [3; 105] None (Some discard) quiet).
  reflexivity.
Defined.

(** ** Invalid arguments of [telnet_read] *)

(** C9, as the claim states it, fails for an absent buffer: with a session
    and a length of 5 the call returns 0, not the length it was given. *)
Lemma telnet_read_null_buffer_returns_zero :
  exists r : read_result,
    telnet_read (Some fresh_session) None 5 None (Some discard) quiet = Ok r
    /\ rr_return r <> 5.
Proof. eexists. split; [reflexivity|]. cbn. lia. Qed.

(** C9, amended. A call of [telnet_read] with an absent buffer or with
    length 0 returns 0, and a call with a buffer and no session returns the
    length it was given; in each of these cases the session, the buffer and
    the world are left as they were, which includes that neither the
    callback nor the writer is called. *)
Theorem telnet_read_invalid_arguments {U : Type}
  (session : option telnet_session_t) (d : list Z) (length : Z)
  (callback : option (telnet_packet_callback_t U))
  (writer : option (telnet_writer_t U)) (w : world U) :
  telnet_read session None length callback writer w
  = Ok {| rr_return := 0; rr_session := session; rr_data := None;
          rr_world := w |}
  /\ telnet_read session (Some d) 0 callback writer w
     = Ok {| rr_return := 0; rr_session := session; rr_data := Some d;
             rr_world := w |}
  /\ telnet_read None (Some d) length callback writer w
     = Ok {| rr_return := length; rr_session := None; rr_data := Some d;
             rr_world := w |}.
Proof.
  repeat split; try reflexivity.
  unfold telnet_read.
  destruct (Z.eqb_spec length 0) as [->|Hne]; reflexivity.
Qed.

(** ** Escaping of application data *)

Section DataWriter.

Context {U : Type}.
Variable session : telnet_session_t.
Variable writer : telnet_writer_t U.

Lemma sink_call_writer (bytes : list Z) (w : world U) :
  sink (trace (call_writer writer session bytes w)) = sink (trace w) ++ bytes.
Proof.
  unfold call_writer, log. cbn [trace host]. rewrite sink_app.
  unfold sink at 2. cbn [written concat]. rewrite app_nil_r. reflexivity.
Qed.

(** The loop of [telnet_write] with [done] already handed to the writer,
    [run] read and pending, and [rest] to come. *)
Lemma write_loop_sink (rest : list Z) :
  forall (done run : list Z) (w : world U),
    len (done ++ run ++ rest) < 2 ^ SIZE_BITS ->
    exists (done' run' : list Z) (w' : world U),
      write_loop (length rest) session (done ++ run ++ rest) writer
        (len done + len run) (len done) (len run) w
      = Ok (len done', len run', w')
      /\ done ++ run ++ rest = done' ++ run'
      /\ sink (trace w') ++ run'
         = sink (trace w) ++ run ++ tripled rest.
Proof.
  induction rest as [|c rest IH]; intros done run w Hsize.
  - exists done, run, w. cbn [length write_loop tripled flat_map].
    rewrite !app_nil_r. repeat split; reflexivity.
  - pose proof (len_nonneg done) as Hdone. pose proof (len_nonneg run) as Hrun.
    pose proof (len_nonneg rest) as Hrest.
    rewrite !len_app, len_cons in Hsize.
    cbn [length write_loop].
    replace (len done + len run) with (len (done ++ run)) by apply len_app.
    rewrite (app_assoc done run (c :: rest)), array_get_middle. cbn [bind].
    rewrite <- (app_assoc done run (c :: rest)).
    rewrite len_app.
    rewrite !size_wrap_small by lia.
    destruct (Z.eqb_spec c TELNET_IAC) as [->|Hc].
    + replace (done ++ run ++ TELNET_IAC :: rest)
        with (done ++ (run ++ [TELNET_IAC]) ++ rest)
        by (rewrite <- (app_assoc run); reflexivity).
      replace (len run + 1) with (len (run ++ [TELNET_IAC]))
        by (rewrite len_app, len_cons, len_nil; lia).
      rewrite slice_middle. cbn [bind].
      set (w2 := call_writer writer session [TELNET_IAC; TELNET_IAC]
                   (call_writer writer session (run ++ [TELNET_IAC]) w)).
      destruct (IH (done ++ run ++ [TELNET_IAC]) [] w2)
        as (done' & run' & w' & Hloop & Hdata & Hsink).
      { rewrite !len_app, len_cons, !len_nil. lia. }
      exists done', run', w'.
      rewrite !len_app, len_cons, !len_nil in Hloop.
      cbn [app] in Hloop, Hdata. rewrite <- !app_assoc in Hloop, Hdata.
      replace (len done + (len run + (0 + 1)) + 0)
        with (len done + len run + 1) in Hloop by lia.
      replace (len done + (len run + (0 + 1)))
        with (len done + len run + 1) in Hloop by lia.
      rewrite <- !app_assoc. cbn [app].
      split; [exact Hloop|]. split; [exact Hdata|].
      rewrite Hsink. unfold w2. rewrite !sink_call_writer.
      cbn [tripled flat_map app]. change (TELNET_IAC =? TELNET_IAC) with true.
      cbv iota. rewrite <- !app_assoc. reflexivity.
    + destruct (IH done (run ++ [c]) w)
        as (done' & run' & w' & Hloop & Hdata & Hsink).
      { rewrite !len_app, len_cons, !len_nil. lia. }
      exists done', run', w'.
      rewrite !len_app, len_cons, !len_nil in Hloop.
      rewrite <- !app_assoc in Hloop, Hdata, Hsink. cbn [app] in *.
      replace (len done + (len run + (0 + 1)))
        with (len done + len run + 1) in Hloop by lia.
      replace (len run + (0 + 1)) with (len run + 1) in Hloop by lia.
      split; [exact Hloop|]. split; [exact Hdata|].
      rewrite Hsink. cbn [tripled flat_map].
      cmp_false (c =? TELNET_IAC). reflexivity.
Qed.

(** [telnet_write] hands [tripled d] to the sink. *)
Lemma telnet_write_sink (d : list Z) (w : world U) :
  len d < 2 ^ SIZE_BITS ->
  exists w' : world U,
    telnet_write (Some session) (Some d) (len d) (Some writer) w = Ok w'
    /\ sink (trace w') = sink (trace w) ++ tripled d.
Proof.
  intros Hsize. unfold telnet_write.
  destruct d as [|c d'].
  - exists w. cbn. rewrite app_nil_r. split; reflexivity.
  - pose proof (len_nonneg d') as Hd'.
    assert (Hne : len (c :: d') <> 0) by (rewrite len_cons; lia).
    rewrite (proj2 (Z.eqb_neq _ _) Hne), to_nat_len.
    destruct (write_loop_sink (c :: d') [] [] w Hsize)
      as (done' & run' & w' & Hloop & Hdata & Hsink).
    cbn [app] in Hloop, Hdata, Hsink.
    change (len (@nil Z)) with 0 in Hloop. change (0 + 0) with 0 in Hloop.
    rewrite Hloop. cbn [bind]. rewrite Hdata, slice_back. cbn [bind].
    eexists. split; [reflexivity|].
    rewrite sink_call_writer, Hsink, Hdata. reflexivity.
Qed.

End DataWriter.

(** On data without IAC the sink receives the data, which then are their
    own escaped form. *)
Lemma tripled_without_iac (d : list Z) :
  Forall (fun c => c <> TELNET_IAC) d -> tripled d = escape d.
Proof.
  induction 1 as [|c d Hc _ IH]; [reflexivity|].
  unfold tripled, escape in *. cbn [flat_map]. rewrite IH.
  cmp_false (c =? TELNET_IAC). reflexivity.
Qed.

(** C1. Round-trip escaping asks that the bytes [telnet_write] hands to the
    sink are the data with every IAC doubled, so that the reader gives the
    data back. The code departs from it: for the data IAC, 65 the sink
    receives IAC IAC IAC 65 (the run written before the escape pair already
    ends with the IAC), whereas the doubled form is IAC IAC 65; the reader,
    fed the bytes of the sink, retains the single byte IAC and dispatches 65
    as a command. *)
Theorem telnet_write_triples_iac :
  exists w : world unit,
    telnet_write (Some fresh_session) (Some [TELNET_IAC; 65]) 2
      (Some discard) quiet = Ok w
    /\ written (trace w) = [[255]; [255; 255]; [65]]
    /\ sink (trace w) = [255; 255; 255; 65]
    /\ escape [TELNET_IAC; 65] = [255; 255; 65]
    /\ exists r : read_result,
         telnet_read (Some fresh_session) (Some (sink (trace w))) 4
           None (Some discard) quiet = Ok r
         /\ retained r = [255]
         /\ map command (dispatched (trace (rr_world r))) = [65].
Proof.
  eexists. split; [vm_compute; reflexivity|].
  repeat split; try reflexivity.
  eexists. split; [vm_compute; reflexivity|].
  split; reflexivity.
Qed.

(** * Further properties of the code *)

(** ** The option registry, read back *)

Lemma array_get_insert_eq {A : Type} (a : list A) (i : Z) (x : A) :
  0 <= i < len a -> array_get (<[Z.to_nat i := x]> a) i = Ok x.
Proof.
  intros H. unfold array_get, len in *. rewrite length_insert.
  cmp_true (0 <=? i). cmp_true (i <? Z.of_nat (length a)). cbn [andb].
  rewrite list_lookup_insert_eq by lia. reflexivity.
Qed.

Lemma array_get_insert_ne {A : Type} (a : list A) (i j : Z) (x : A) :
  0 <= i -> i <> j -> array_get (<[Z.to_nat i := x]> a) j = array_get a j.
Proof.
  intros Hi Hne. unfold array_get, len. rewrite length_insert.
  destruct ((0 <=? j) && (j <? Z.of_nat (length a))) eqn:Hj; [|reflexivity].
  apply andb_prop in Hj as [Hj _]. apply Z.leb_le in Hj.
  rewrite list_lookup_insert_ne by lia. reflexivity.
Qed.

(** X1. [telnet_set_option] followed by [telnet_get_option]: for an option
    below 64 the bit written is the bit read back, every other option reads
    as before, and nothing else of the session changes. *)
Theorem option_set_then_get (s : telnet_session_t) (o : Z) (v : bool) :
  0 <= o < 64 ->
  exists s' : telnet_session_t,
    telnet_set_option (Some s) o v = Ok (Some s')
    /\ telnet_get_option (Some s') o = Ok v
    /\ (forall o' : Z, 0 <= o' < 64 -> o' <> o ->
          telnet_get_option (Some s') o' = telnet_get_option (Some s) o')
    /\ state s' = state s /\ packet s' = packet s
    /\ subnegotiation_options s' = subnegotiation_options s
    /\ user_data s' = user_data s.
Proof.
  intros Ho.
  destruct (telnet_set_option_get s o v Ho) as (s' & Hset & Hget & Hother).
  exists s'. repeat split; try assumption;
    unfold telnet_set_option in Hset;
    destruct (if v then _bit_set (options s) o else _bit_clear (options s) o);
    cbn [bind] in Hset; inversion Hset; reflexivity.
Qed.

Lemma option_set_then_get_witness :
  0 <= 3 < 64
  /\ exists s' : telnet_session_t,
       telnet_set_option (Some fresh_session) 3 true = Ok (Some s')
       /\ telnet_get_option (Some s') 3 = Ok true
       /\ (forall o' : Z, 0 <= o' < 64 -> o' <> 3 ->
             telnet_get_option (Some s') o'
             = telnet_get_option (Some fresh_session) o')
       /\ state s' = state fresh_session /\ packet s' = packet fresh_session
       /\ subnegotiation_options s' = subnegotiation_options fresh_session
       /\ user_data s' = user_data fresh_session.
Proof.
  split; [lia|]. apply (option_set_then_get fresh_session 3 true). lia.
Defined.

(** X2. [telnet_set_subnegotiation_option] followed by
    [telnet_get_subnegotiation_option]: for an option inside the table the
    reply registered (or the absence of one) is what is read back, every
    other option reads as before, and nothing else of the session changes. *)
Theorem subnegotiation_option_set_then_get (s : telnet_session_t) (o : Z)
  (value : option (list Z)) :
  0 <= o < len (subnegotiation_options s) ->
  exists s' : telnet_session_t,
    telnet_set_subnegotiation_option (Some s) o value = Ok (Some s')
    /\ telnet_get_subnegotiation_option (Some s') o = Ok value
    /\ (forall o' : Z, o' <> o ->
          telnet_get_subnegotiation_option (Some s') o'
          = telnet_get_subnegotiation_option (Some s) o')
    /\ state s' = state s /\ packet s' = packet s
    /\ options s' = options s /\ user_data s' = user_data s.
Proof.
  intros Ho. unfold telnet_set_subnegotiation_option, array_set.
  cmp_true (0 <=? o). cmp_true (o <? len (subnegotiation_options s)).
  cbn [andb bind]. eexists. split; [reflexivity|].
  cbn [telnet_get_subnegotiation_option subnegotiation_options
         set_subnegotiation_options].
  split; [apply array_get_insert_eq; exact Ho|].
  split; [intros o' Hne; apply array_get_insert_ne; lia|].
  repeat split.
Qed.

Lemma subnegotiation_option_set_then_get_witness :
  0 <= 24 < len (subnegotiation_options fresh_session)
  /\ exists s' : telnet_session_t,
       telnet_set_subnegotiation_option (Some fresh_session) 24
         (Some [120; 116; 101; 114; 109; 0]) = Ok (Some s')
       /\ telnet_get_subnegotiation_option (Some s') 24
          = Ok (Some [120; 116; 101; 114; 109; 0])
       /\ (forall o' : Z, o' <> 24 ->
             telnet_get_subnegotiation_option (Some s') o'
             = telnet_get_subnegotiation_option (Some fresh_session) o')
       /\ state s' = state fresh_session /\ packet s' = packet fresh_session
       /\ options s' = options fresh_session
       /\ user_data s' = user_data fresh_session.
Proof.
  split; [vm_compute; split; [discriminate|reflexivity]|].
  apply (subnegotiation_option_set_then_get fresh_session 24
           (Some [120; 116; 101; 114; 109; 0])).
  vm_compute. split; [discriminate|reflexivity].
Defined.

(** X3. [telnet_init] yields, from any session memory, a session in state
    READY with the default packet, in which every option below 64 reads
    unsupported, every entry of the table of canned replies is empty and
    the user data are absent; applied again it changes nothing. *)
Theorem telnet_init_resets (s0 : telnet_session_t) :
  exists s : telnet_session_t,
    telnet_init (Some s0) = Some s
    /\ state s = TELNET_STATE_READY
    /\ packet s = default_packet
    /\ (forall o : Z, 0 <= o < 64 -> telnet_get_option (Some s) o = Ok false)
    /\ len (subnegotiation_options s) = len (subnegotiation_options s0)
    /\ (forall o : Z, 0 <= o < len (subnegotiation_options s0) ->
          telnet_get_subnegotiation_option (Some s) o = Ok None)
    /\ telnet_get_user_data (Some s) = None
    /\ telnet_init (Some s) = Some s.
Proof.
  eexists. split; [reflexivity|].
  cbn [state packet options subnegotiation_options user_data set_state
         set_packet set_options set_subnegotiation_options set_user_data
         telnet_init_packet telnet_get_user_data telnet_get_option
         telnet_get_subnegotiation_option].
  repeat split.
  - intros o Ho. rewrite _bit_get_testbit by exact Ho.
    rewrite Z.bits_0. reflexivity.
  - unfold len. rewrite length_replicate. reflexivity.
  - intros o Ho.
    destruct (array_get_lookup
                (replicate (length (subnegotiation_options s0)) (@None (list Z))) o)
      as (x & Hx & ->).
    { unfold len in *. rewrite length_replicate. exact Ho. }
    apply lookup_replicate in Hx as [-> _]. reflexivity.
  - cbn [telnet_init state packet options subnegotiation_options user_data
           set_state set_packet set_options set_subnegotiation_options
           set_user_data telnet_init_packet].
    rewrite length_replicate. reflexivity.
Qed.

(** ** Deleting a byte from the buffer *)

(** X4. [_delete_uint8_tacter] on the first [length] bytes of a buffer: an
    index below [length] removes the byte at that index, moves the bytes
    after it one place to the left, returns [length - 1], and changes
    neither the bytes before the index nor the bytes from [length] on nor
    the size of the buffer; an index from [length] on changes nothing. *)
Theorem _delete_uint8_tacter_removes (pre : list Z) (c : Z)
  (rest tail data : list Z) (n index : Z) :
  (exists stale : Z,
     _delete_uint8_tacter (pre ++ c :: rest ++ tail)
       (len pre + 1 + len rest) (len pre)
     = Ok (pre ++ rest ++ stale :: tail, len pre + len rest))
  /\ (n <= index -> _delete_uint8_tacter data n index = Ok (data, n)).
Proof.
  split.
  - rewrite _delete_uint8_tacter_middle.
    assert (Hdrop : exists stale : Z,
              drop (length rest) (c :: rest ++ tail) = stale :: tail).
    { clear. revert c. induction rest as [|c' rest IH]; intros c.
      - exists c. reflexivity.
      - cbn [length app drop]. apply IH. }
    destruct Hdrop as (stale & ->). exists stale. reflexivity.
  - intros H. unfold _delete_uint8_tacter. cmp_true (index >=? n).
    reflexivity.
Qed.

(** ** Names for logging *)

Lemma in_seqZ (m n x : Z) : m <= x < m + n -> In x (seqZ m n).
Proof. intros H. apply list_elem_of_In, elem_of_seqZ. exact H. Qed.

(** X5. [telnet_command_name] on bytes: a byte has the name UNKNOWN exactly
    when it lies below 240, the first command of the enumeration, and two
    bytes with the same name are the same byte or both have no name of
    their own. *)
Theorem telnet_command_name_table (c1 c2 : Z) :
  0 <= c1 < 256 -> 0 <= c2 < 256 ->
  (telnet_command_name c1 = UNKNOWN <-> c1 < 240)
  /\ (telnet_command_name c1 = telnet_command_name c2 ->
      c1 = c2 \/ (c1 < 240 /\ c2 < 240)).
Proof.
  intros H1 H2.
  assert (Hunknown :
    forallb (fun c => Bool.eqb (String.eqb (telnet_command_name c) UNKNOWN)
                        (c <? 240)) (seqZ 0 256) = true)
    by (vm_compute; reflexivity).
  assert (Hdistinct :
    forallb (fun a =>
      forallb (fun b =>
        implb (String.eqb (telnet_command_name a) (telnet_command_name b))
              ((a =? b) || ((a <? 240) && (b <? 240)))) (seqZ 0 256))
      (seqZ 0 256) = true)
    by (vm_compute; reflexivity).
  rewrite forallb_forall in Hunknown, Hdistinct.
  split.
  - specialize (Hunknown c1 (in_seqZ 0 256 c1 ltac:(lia))).
    apply Bool.eqb_prop in Hunknown.
    rewrite <- String.eqb_eq, Hunknown. apply Z.ltb_lt.
  - intros Hname.
    specialize (Hdistinct c1 (in_seqZ 0 256 c1 ltac:(lia))).
    rewrite forallb_forall in Hdistinct.
    specialize (Hdistinct c2 (in_seqZ 0 256 c2 ltac:(lia))).
    apply String.eqb_eq in Hname. rewrite Hname in Hdistinct.
    cbn [implb] in Hdistinct. apply orb_prop in Hdistinct as [H|H].
    + left. apply Z.eqb_eq. exact H.
    + right. apply andb_prop in H as [Ha Hb].
      split; apply Z.ltb_lt; assumption.
Qed.

Lemma telnet_command_name_table_witness :
  0 <= 255 < 256 /\ 0 <= 250 < 256
  /\ (telnet_command_name 255 = UNKNOWN <-> 255 < 240)
  /\ (telnet_command_name 255 = telnet_command_name 250 ->
      255 = 250 \/ (255 < 240 /\ 250 < 240)).
Proof.
  split; [lia|]. split; [lia|].
  apply (telnet_command_name_table 255 250); lia.
Defined.

(** X6. [telnet_option_name] on bytes: a byte has the name UNKNOWN exactly
    when it is [TELNET_OPTION_MAX] or more, so every option of the
    enumeration has a name, and two bytes with the same name are the same
    byte or both have no name of their own. *)
Theorem telnet_option_name_table (o1 o2 : Z) :
  0 <= o1 < 256 -> 0 <= o2 < 256 ->
  (telnet_option_name o1 = UNKNOWN <-> TELNET_OPTION_MAX <= o1)
  /\ (telnet_option_name o1 = telnet_option_name o2 ->
      o1 = o2 \/ (TELNET_OPTION_MAX <= o1 /\ TELNET_OPTION_MAX <= o2)).
Proof.
  intros H1 H2.
  assert (Hunknown :
    forallb (fun o => Bool.eqb (String.eqb (telnet_option_name o) UNKNOWN)
                        (TELNET_OPTION_MAX <=? o)) (seqZ 0 256) = true)
    by (vm_compute; reflexivity).
  assert (Hdistinct :
    forallb (fun a =>
      forallb (fun b =>
        implb (String.eqb (telnet_option_name a) (telnet_option_name b))
              ((a =? b)
               || ((TELNET_OPTION_MAX <=? a) && (TELNET_OPTION_MAX <=? b))))
        (seqZ 0 256))
      (seqZ 0 256) = true)
    by (vm_compute; reflexivity).
  rewrite forallb_forall in Hunknown, Hdistinct.
  split.
  - specialize (Hunknown o1 (in_seqZ 0 256 o1 ltac:(lia))).
    apply Bool.eqb_prop in Hunknown.
    rewrite <- String.eqb_eq, Hunknown. apply Z.leb_le.
  - intros Hname.
    specialize (Hdistinct o1 (in_seqZ 0 256 o1 ltac:(lia))).
    rewrite forallb_forall in Hdistinct.
    specialize (Hdistinct o2 (in_seqZ 0 256 o2 ltac:(lia))).
    apply String.eqb_eq in Hname. rewrite Hname in Hdistinct.
    cbn [implb] in Hdistinct. apply orb_prop in Hdistinct as [H|H].
    + left. apply Z.eqb_eq. exact H.
    + right. apply andb_prop in H as [Ha Hb].
      split; apply Z.leb_le; assumption.
Qed.

Lemma telnet_option_name_table_witness :
  0 <= 24 < 256 /\ 0 <= 49 < 256
  /\ (telnet_option_name 24 = UNKNOWN <-> TELNET_OPTION_MAX <= 24)
  /\ (telnet_option_name 24 = telnet_option_name 49 ->
      24 = 49 \/ (TELNET_OPTION_MAX <= 24 /\ TELNET_OPTION_MAX <= 49)).
Proof.
  split; [lia|]. split; [lia|].
  apply (telnet_option_name_table 24 49); lia.
Defined.

(** ** The reader on whole buffers *)

Section ReaderFacts.

Context {U : Type}.
Variable writer : option (telnet_writer_t U).
Variable callback : option (telnet_packet_callback_t U).

Lemma packet_append_fields (c : Z) (s s' : telnet_session_t) :
  packet_append c s = Ok s' ->
  state s' = state s /\ options s' = options s
  /\ subnegotiation_options s' = subnegotiation_options s
  /\ user_data s' = user_data s.
Proof.
  unfold packet_append.
  destruct (array_set (subnegotiation_data (packet s))
              (subnegotiation_length (packet s)) c); cbn [bind]; [|discriminate].
  intros H. inversion H. repeat split.
Qed.

Lemma packet_append_ok (c : Z) (s s' : telnet_session_t) :
  packet_ok (packet s) -> packet_append c s = Ok s' -> packet_ok (packet s').
Proof.
  intros [Hsize Hlen] Happend.
  destruct (packet_append_when_room c s s' Happend) as (Hroom & Hsize' & _).
  unfold packet_append in Happend.
  destruct (array_set (subnegotiation_data (packet s))
              (subnegotiation_length (packet s)) c); cbn [bind] in Happend;
    [|discriminate].
  inversion Happend. subst s'. split; [rewrite Hsize'; exact Hsize|].
  cbn [packet set_packet subnegotiation_length set_subnegotiation].
  unfold SUBNEGOTIATION_CAPACITY in *.
  rewrite size_wrap_small; [lia|]. unfold SIZE_BITS. lia.
Qed.

Lemma default_packet_ok : packet_ok default_packet.
Proof. split; [reflexivity|]. cbn. unfold SUBNEGOTIATION_CAPACITY. lia. Qed.

(** What no round of the reader changes, and what every round keeps. *)
Lemma feed_fields (s : telnet_session_t) (w : world U) (c : Z)
  (r : telnet_session_t * world U * bool) :
  feed writer callback s w c = Ok r ->
  options (fst (fst r)) = options s
  /\ subnegotiation_options (fst (fst r)) = subnegotiation_options s
  /\ user_data (fst (fst r)) = user_data s
  /\ (packet_ok (packet s) -> packet_ok (packet (fst (fst r)))).
Proof.
  unfold feed.
  destruct (state s);
    repeat match goal with
      | |- context [if ?b then _ else _] => destruct b
      end;
    repeat match goal with
      | |- context [_handle_incomming_packet ?a ?b ?c ?d] =>
          destruct (_handle_incomming_packet a b c d)
      end;
    cbn [bind]; try discriminate;
    try (intros H; inversion H; subst; cbn [fst snd];
         split; [reflexivity|]; split; [reflexivity|]; split; [reflexivity|];
         first [ exact (fun Hok => Hok)
               | intros _; exact default_packet_ok ]).
  all: match goal with
       | |- context [packet_append ?a ?b] =>
           destruct (packet_append a b) as [s1|] eqn:Happend
       end;
    cbn [bind]; try discriminate;
    intros H; inversion H; subst; cbn [fst snd];
    destruct (packet_append_fields _ _ _ Happend) as (_ & Ho & Ht & Hu);
    cbn [options subnegotiation_options user_data set_state];
    (split; [assumption|]); (split; [assumption|]); (split; [assumption|]);
    intros Hok; apply (packet_append_ok _ _ _ Hok Happend).
Qed.

Lemma scan_fields (input : list Z) :
  forall (s : telnet_session_t) (w : world U)
    (r : telnet_session_t * world U * list Z),
    scan writer callback s w input = Ok r ->
    options (fst (fst r)) = options s
    /\ subnegotiation_options (fst (fst r)) = subnegotiation_options s
    /\ user_data (fst (fst r)) = user_data s
    /\ (packet_ok (packet s) -> packet_ok (packet (fst (fst r))))
    /\ snd r `sublist_of` input.
Proof.
  induction input as [|c input IH]; intros s w r; cbn [scan].
  - intros H. inversion H. cbn [fst snd].
    split; [reflexivity|]. split; [reflexivity|]. split; [reflexivity|].
    split; [auto|constructor].
  - destruct (feed writer callback s w c) as [r1|e] eqn:Hfeed;
      cbn [bind]; [|discriminate].
    destruct (scan writer callback (fst (fst r1)) (snd (fst r1)) input)
      as [r2|e] eqn:Hscan; cbn [bind]; [|discriminate].
    intros H. inversion H. subst r. cbn [fst snd].
    destruct (feed_fields _ _ _ _ Hfeed) as (Ho & Ht & Hu & Hok).
    destruct (IH _ _ _ Hscan) as (Ho' & Ht' & Hu' & Hok' & Hsub).
    split; [congruence|]. split; [congruence|]. split; [congruence|].
    split; [auto|].
    destruct (snd r1); [apply sublist_skip|apply sublist_cons]; exact Hsub.
Qed.

(** Plain data in state READY pass [scan] unchanged. *)
Lemma scan_plain (d : list Z) (s : telnet_session_t) (w : world U) :
  state s = TELNET_STATE_READY ->
  Forall (fun c => c <> TELNET_IAC) d ->
  scan writer callback s w d = Ok (s, w, d).
Proof.
  intros Hready Hplain.
  induction Hplain as [|c d Hc _ IH]; cbn [scan]; [reflexivity|].
  unfold feed. rewrite Hready. cmp_false (c =? TELNET_IAC).
  cbn [bind fst snd]. rewrite IH. reflexivity.
Qed.

(** Doubled IAC in state READY: [scan] undoes [escape]. *)
Lemma scan_escape (d : list Z) :
  forall (s : telnet_session_t) (w : world U),
    state s = TELNET_STATE_READY ->
    exists s' : telnet_session_t,
      scan writer callback s w (escape d) = Ok (s', w, d)
      /\ state s' = TELNET_STATE_READY.
Proof.
  induction d as [|c d IH]; intros s w Hready.
  - exists s. split; [reflexivity|exact Hready].
  - unfold escape in *. cbn [flat_map].
    destruct (Z.eqb_spec c TELNET_IAC) as [->|Hc]; cbn [app scan].
    + unfold feed at 1. rewrite Hready.
      change (TELNET_IAC =? TELNET_IAC) with true. cbn [bind fst snd].
      unfold feed at 1. cbn [state set_state].
      change (TELNET_IAC =? TELNET_IAC) with true. cbn [bind fst snd].
      match goal with
      | |- context [scan writer callback ?s1 w _] =>
          destruct (IH s1 w eq_refl) as (s' & -> & Hs')
      end.
      exists s'. split; [reflexivity|exact Hs'].
    + unfold feed at 1. rewrite Hready. cmp_false (c =? TELNET_IAC).
      cbn [bind fst snd].
      destruct (IH s w Hready) as (s' & -> & Hs').
      exists s'. split; [reflexivity|exact Hs'].
Qed.

End ReaderFacts.

(** X7. Plain data pass the reader untouched: in state READY a buffer
    without IAC comes back as it was, with its length, and neither the
    session nor the world changes (no dispatch, no call of the callback or
    of the writer). *)
Theorem telnet_read_plain_data {U : Type} (s : telnet_session_t) (d : list Z)
  (callback : option (telnet_packet_callback_t U))
  (writer : option (telnet_writer_t U)) (w : world U) :
  state s = TELNET_STATE_READY ->
  Forall (fun c => c <> TELNET_IAC) d ->
  len d < 2 ^ SIZE_BITS ->
  telnet_read (Some s) (Some d) (len d) callback writer w
  = Ok {| rr_return := len d; rr_session := Some s; rr_data := Some d;
          rr_world := w |}.
Proof.
  intros Hready Hplain Hsize.
  pose proof (telnet_read_scan writer callback s d w Hsize) as H.
  rewrite (scan_plain writer callback d s w Hready Hplain) in H.
  cbn [fst snd] in H. destruct H as (stale & Hlen & ->).
  assert (stale = []) as -> by (destruct stale; [reflexivity|cbn in Hlen; lia]).
  rewrite app_nil_r. reflexivity.
Qed.

Lemma telnet_read_plain_data_witness :
  state fresh_session = TELNET_STATE_READY
  /\ Forall (fun c => c <> TELNET_IAC) [104; 105]
  /\ len [104; 105] < 2 ^ SIZE_BITS
  /\ telnet_read (Some fresh_session) (Some [104; 105]) (len [104; 105])
       None (Some discard) quiet
     = Ok {| rr_return := len [104; 105]; rr_session := Some fresh_session;
             rr_data := Some [104; 105]; rr_world := quiet |}.
Proof.
  assert (Hplain : Forall (fun c => c <> TELNET_IAC) [104; 105])
    by (repeat constructor; discriminate).
  split; [reflexivity|]. split; [exact Hplain|]. split; [reflexivity|].
  apply (telnet_read_plain_data fresh_session [104; 105] None (Some discard)
           quiet); [reflexivity|exact Hplain|reflexivity].
Defined.

(** X8. The reader undoes byte stuffing: in state READY a buffer that holds
    the data [d] with every IAC doubled is compacted to [d] itself, the
    returned length is the length of [d], the session is in state READY
    again, and the world does not change (no dispatch, no call of the
    writer). *)
Theorem telnet_read_unescapes {U : Type} (s : telnet_session_t) (d : list Z)
  (callback : option (telnet_packet_callback_t U))
  (writer : option (telnet_writer_t U)) (w : world U) :
  state s = TELNET_STATE_READY ->
  len (escape d) < 2 ^ SIZE_BITS ->
  exists r : read_result,
    telnet_read (Some s) (Some (escape d)) (len (escape d)) callback writer w
    = Ok r
    /\ rr_return r = len d
    /\ retained r = d
    /\ option_map state (rr_session r) = Some TELNET_STATE_READY
    /\ rr_world r = w.
Proof.
  intros Hready Hsize.
  pose proof (telnet_read_scan writer callback s (escape d) w Hsize) as H.
  destruct (scan_escape writer callback d s w Hready) as (s' & Hscan & Hs').
  rewrite Hscan in H. cbn [fst snd] in H. destruct H as (stale & _ & ->).
  eexists. split; [reflexivity|].
  unfold retained. cbn [rr_return rr_data rr_session rr_world option_map].
  rewrite to_nat_len, take_app_length, Hs'. repeat split.
Qed.

Lemma telnet_read_unescapes_witness :
  state fresh_session = TELNET_STATE_READY
  /\ len (escape [104; TELNET_IAC; 105]) < 2 ^ SIZE_BITS
  /\ exists r : read_result,
       telnet_read (Some fresh_session) (Some (escape [104; TELNET_IAC; 105]))
         (len (escape [104; TELNET_IAC; 105])) None (Some discard) quiet
       = Ok r
       /\ rr_return r = len [104; TELNET_IAC; 105]
       /\ retained r = [104; TELNET_IAC; 105]
       /\ option_map state (rr_session r) = Some TELNET_STATE_READY
       /\ rr_world r = quiet.
Proof.
  split; [reflexivity|]. split; [reflexivity|].
  apply (telnet_read_unescapes fresh_session [104; TELNET_IAC; 105] None
           (Some discard) quiet); reflexivity.
Defined.

(** X9. The reader only deletes: when [telnet_read] returns, the returned
    length is at most the length it was given, the buffer has the size it
    had, and the bytes retained are bytes of the input in their order (a
    subsequence of the input). *)
Theorem telnet_read_only_deletes {U : Type} (s : telnet_session_t) (d : list Z)
  (callback : option (telnet_packet_callback_t U))
  (writer : option (telnet_writer_t U)) (w : world U) :
  len d < 2 ^ SIZE_BITS ->
  match telnet_read (Some s) (Some d) (len d) callback writer w with
  | Ok r =>
      0 <= rr_return r <= len d
      /\ option_map len (rr_data r) = Some (len d)
      /\ retained r `sublist_of` d
  | Err _ => True
  end.
Proof.
  intros Hsize.
  pose proof (telnet_read_scan writer callback s d w Hsize) as H.
  destruct (scan writer callback s w d) as [r|e] eqn:Hscan.
  - destruct H as (stale & Hlen & ->).
    destruct (scan_fields writer callback d s w r Hscan) as (_ & _ & _ & _ & Hsub).
    unfold retained. cbn [rr_return rr_data option_map].
    rewrite to_nat_len, take_app_length.
    split; [unfold len; lia|]. split; [|exact Hsub].
    f_equal. unfold len. rewrite length_app. lia.
  - rewrite H. exact I.
Qed.

Lemma telnet_read_only_deletes_witness :
  len [104; TELNET_IAC; TELNET_DO; 3; 105] < 2 ^ SIZE_BITS
  /\ match telnet_read (Some fresh_session)
             (Some [104; TELNET_IAC; TELNET_DO; 3; 105])
             (len [104; TELNET_IAC; TELNET_DO; 3; 105])
             None (Some discard) quiet with
     | Ok r =>
         0 <= rr_return r <= len [104; TELNET_IAC; TELNET_DO; 3; 105]
         /\ option_map len (rr_data r)
            = Some (len [104; TELNET_IAC; TELNET_DO; 3; 105])
         /\ retained r `sublist_of` [104; TELNET_IAC; TELNET_DO; 3; 105]
     | Err _ => True
     end.
Proof.
  split; [reflexivity|].
  apply (telnet_read_only_deletes fresh_session
           [104; TELNET_IAC; TELNET_DO; 3; 105] None (Some discard) quiet).
  reflexivity.
Defined.



(** X11. The loop of [telnet_read] ends: for every session, buffer, callback
    and writer the scan makes at most [length] rounds and one more test,
    the rewinding of the index after a deletion notwithstanding. *)
Theorem telnet_read_terminates {U : Type} (s : telnet_session_t) (d : list Z)
  (callback : option (telnet_packet_callback_t U))
  (writer : option (telnet_writer_t U)) (w : world U) :
  len d < 2 ^ SIZE_BITS ->
  telnet_read (Some s) (Some d) (len d) callback writer w <> Err FuelExhausted.
Proof. apply telnet_read_within_fuel. Qed.

Lemma telnet_read_terminates_witness :
  len [TELNET_IAC; TELNET_DO; 3] < 2 ^ SIZE_BITS
  /\ telnet_read (Some fresh_session) (Some [TELNET_IAC; TELNET_DO; 3])
       (len [TELNET_IAC; TELNET_DO; 3]) None (Some discard) quiet
     <> Err FuelExhausted.
Proof.
  split; [reflexivity|].
  apply (telnet_read_terminates fresh_session [TELNET_IAC; TELNET_DO; 3]
           None (Some discard) quiet).
  reflexivity.
Defined.

(** ** Subnegotiation data *)

(** An append with room left: the byte lands behind the bytes counted so
    far. *)
Lemma packet_append_room (c : Z) (s : telnet_session_t) :
  packet_ok (packet s) ->
  subnegotiation_length (packet s) < SUBNEGOTIATION_CAPACITY ->
  exists s' : telnet_session_t,
    packet_append c s = Ok s'
    /\ state s' = state s
    /\ packet_ok (packet s')
    /\ subnegotiation_length (packet s') = subnegotiation_length (packet s) + 1
    /\ take (Z.to_nat (subnegotiation_length (packet s) + 1))
         (subnegotiation_data (packet s'))
       = take (Z.to_nat (subnegotiation_length (packet s)))
           (subnegotiation_data (packet s)) ++ [c].
Proof.
  intros [Hsize Hlen] Hroom. unfold packet_append, array_set.
  cmp_true (0 <=? subnegotiation_length (packet s)).
  cmp_true (subnegotiation_length (packet s)
            <? len (subnegotiation_data (packet s))).
  cbn [andb bind]. eexists. split; [reflexivity|].
  unfold packet_ok.
  cbn [state packet set_packet subnegotiation_length subnegotiation_data
         set_subnegotiation].
  unfold SUBNEGOTIATION_CAPACITY in *.
  rewrite size_wrap_small by (unfold SIZE_BITS; lia).
  split; [reflexivity|].
  split.
  { split; [unfold len in *; rewrite length_insert; exact Hsize|lia]. }
  split; [reflexivity|].
  replace (Z.to_nat (subnegotiation_length (packet s) + 1))
    with (S (Z.to_nat (subnegotiation_length (packet s)))) by lia.
  rewrite (take_S_r _ _ c).
  - rewrite take_insert_ge by lia. reflexivity.
  - apply list_lookup_insert_eq. unfold len in Hsize. lia.
Qed.

Section SubnegotiationData.

Context {U : Type}.
Variable writer : option (telnet_writer_t U).
Variable callback : option (telnet_packet_callback_t U).

Lemma bind_triple_eta {A B C : Type} (m : result (A * B * C)) :
  (let* r := m in Ok (fst (fst r), snd (fst r), snd r)) = m.
Proof. destruct m as [[[a b] c]|e]; reflexivity. Qed.

(** One data byte of a subnegotiation, as [escape] writes it, through the
    reader. *)
Lemma scan_subnegotiation_byte (c : Z) (rest : list Z) (s : telnet_session_t)
  (w : world U) :
  state s = TELNET_STATE_IN_SUBNEGOTIATION_VALUE ->
  scan writer callback s w (escape (c :: rest))
  = let* s1 := packet_append c s in
    scan writer callback
      (set_state TELNET_STATE_IN_SUBNEGOTIATION_VALUE s1) w (escape rest).
Proof.
  intros Hvalue. unfold escape. cbn [flat_map]. fold (escape rest).
  destruct (Z.eqb_spec c TELNET_IAC) as [->|Hc]; cbn [app scan].
  - unfold feed at 1. rewrite Hvalue.
    change (TELNET_IAC =? TELNET_IAC) with true. cbn [bind fst snd].
    unfold feed at 1. cbn [state set_state].
    change (TELNET_IAC =? TELNET_IAC) with true. cbv iota.
    unfold packet_append.
    cbn [packet set_state subnegotiation_length subnegotiation_data].
    destruct (array_set (subnegotiation_data (packet s))
                (subnegotiation_length (packet s)) TELNET_IAC);
      cbn [bind fst snd]; [|reflexivity].
    rewrite !bind_triple_eta. reflexivity.
  - unfold feed at 1. rewrite Hvalue. cmp_false (c =? TELNET_IAC).
    destruct (packet_append c s) as [s1|e] eqn:Happend; cbn [bind fst snd];
      [|reflexivity].
    rewrite bind_triple_eta.
    destruct (packet_append_fields c s s1 Happend) as (Hstate & _).
    f_equal. destruct s1. cbn in Hstate. rewrite Hvalue in Hstate. subst.
    reflexivity.
Qed.

Lemma scan_subnegotiation_data (bs : list Z) :
  forall (s : telnet_session_t) (w : world U),
    state s = TELNET_STATE_IN_SUBNEGOTIATION_VALUE ->
    packet_ok (packet s) ->
    subnegotiation_length (packet s) + len bs <= SUBNEGOTIATION_CAPACITY ->
    exists s' : telnet_session_t,
      scan writer callback s w (escape bs) = Ok (s', w, [])
      /\ state s' = TELNET_STATE_IN_SUBNEGOTIATION_VALUE
      /\ subnegotiation_length (packet s')
         = subnegotiation_length (packet s) + len bs
      /\ take (Z.to_nat (subnegotiation_length (packet s')))
           (subnegotiation_data (packet s'))
         = take (Z.to_nat (subnegotiation_length (packet s)))
             (subnegotiation_data (packet s)) ++ bs.
Proof.
  induction bs as [|c bs IH]; intros s w Hvalue Hok Hfits.
  - exists s. rewrite len_nil, Z.add_0_r, app_nil_r.
    repeat split; try reflexivity; exact Hvalue.
  - pose proof (len_nonneg bs) as Hbs. rewrite len_cons in Hfits |- *.
    rewrite (scan_subnegotiation_byte c bs s w Hvalue).
    destruct (packet_append_room c s Hok ltac:(lia))
      as (s1 & -> & Hstate & Hok1 & Hlen1 & Hdata1).
    cbn [bind].
    destruct (IH (set_state TELNET_STATE_IN_SUBNEGOTIATION_VALUE s1) w
                eq_refl Hok1 ltac:(cbn [packet set_state]; lia))
      as (s' & -> & Hs' & Hlen' & Hdata').
    cbn [packet set_state] in Hlen', Hdata'.
    exists s'. split; [reflexivity|]. split; [exact Hs'|].
    split; [lia|].
    rewrite Hdata', Hlen1, Hdata1, <- app_assoc. reflexivity.
Qed.

Lemma scan_subnegotiation_overflow (bs : list Z) :
  forall (s : telnet_session_t) (w : world U),
    state s = TELNET_STATE_IN_SUBNEGOTIATION_VALUE ->
    packet_ok (packet s) ->
    SUBNEGOTIATION_CAPACITY < subnegotiation_length (packet s) + len bs ->
    scan writer callback s w (escape bs) = Err WriteOutOfBounds.
Proof.
  induction bs as [|c bs IH]; intros s w Hvalue Hok Hover.
  - rewrite len_nil in Hover. destruct Hok as [_ Hlen]. lia.
  - pose proof (len_nonneg bs) as Hbs. rewrite len_cons in Hover.
    rewrite (scan_subnegotiation_byte c bs s w Hvalue).
    destruct (Z.ltb_spec (subnegotiation_length (packet s))
                SUBNEGOTIATION_CAPACITY) as [Hroom|Hfull].
    + destruct (packet_append_room c s Hok Hroom)
        as (s1 & -> & Hstate & Hok1 & Hlen1 & _).
      cbn [bind]. apply IH; [reflexivity|exact Hok1|].
      cbn [packet set_state]. lia.
    + rewrite packet_append_when_full; [reflexivity|].
      destruct Hok as [-> _]. exact Hfull.
Qed.

End SubnegotiationData.

(** X12. Subnegotiation data that fit: in state IN_SUBNEGOTIATION_VALUE,
    with a well-formed packet that counts [n] bytes, a buffer that holds the
    data [bs] with every IAC doubled is consumed whole when [n] and the
    length of [bs] together do not exceed the 64 bytes of the array:
    [telnet_read] returns 0, the packet counts the old bytes followed by
    [bs], the doubled IAC undone, the state is the same, and the world does
    not change. *)
Theorem telnet_read_stores_subnegotiation_data {U : Type}
  (s : telnet_session_t) (bs : list Z)
  (callback : option (telnet_packet_callback_t U))
  (writer : option (telnet_writer_t U)) (w : world U) :
  state s = TELNET_STATE_IN_SUBNEGOTIATION_VALUE ->
  packet_ok (packet s) ->
  subnegotiation_length (packet s) + len bs <= SUBNEGOTIATION_CAPACITY ->
  len (escape bs) < 2 ^ SIZE_BITS ->
  exists (r : read_result) (s' : telnet_session_t),
    telnet_read (Some s) (Some (escape bs)) (len (escape bs)) callback writer w
    = Ok r
    /\ rr_return r = 0
    /\ rr_world r = w
    /\ rr_session r = Some s'
    /\ state s' = TELNET_STATE_IN_SUBNEGOTIATION_VALUE
    /\ subnegotiation_length (packet s')
       = subnegotiation_length (packet s) + len bs
    /\ take (Z.to_nat (subnegotiation_length (packet s')))
         (subnegotiation_data (packet s'))
       = take (Z.to_nat (subnegotiation_length (packet s)))
           (subnegotiation_data (packet s)) ++ bs.
Proof.
  intros Hvalue Hok Hfits Hsize.
  pose proof (telnet_read_scan writer callback s (escape bs) w Hsize) as H.
  destruct (scan_subnegotiation_data writer callback bs s w Hvalue Hok Hfits)
    as (s' & Hscan & Hs' & Hlen & Hdata).
  rewrite Hscan in H. cbn [fst snd] in H. destruct H as (stale & _ & ->).
  eexists. exists s'. split; [reflexivity|].
  cbn [rr_return rr_world rr_session]. repeat split; assumption.
Qed.

(** X13. Subnegotiation data that do not fit: in the same state, when [n]
    and the length of [bs] together exceed the 64 bytes of the array, the
    reader stores a byte past the end of [subnegotiation_data]; nothing in
    [telnet_read] stops the append. *)
Theorem telnet_read_overruns_when_data_do_not_fit {U : Type}
  (s : telnet_session_t) (bs : list Z)
  (callback : option (telnet_packet_callback_t U))
  (writer : option (telnet_writer_t U)) (w : world U) :
  state s = TELNET_STATE_IN_SUBNEGOTIATION_VALUE ->
  packet_ok (packet s) ->
  SUBNEGOTIATION_CAPACITY < subnegotiation_length (packet s) + len bs ->
  len (escape bs) < 2 ^ SIZE_BITS ->
  telnet_read (Some s) (Some (escape bs)) (len (escape bs)) callback writer w
  = Err WriteOutOfBounds.
Proof.
  intros Hvalue Hok Hover Hsize.
  pose proof (telnet_read_scan writer callback s (escape bs) w Hsize) as H.
  rewrite (scan_subnegotiation_overflow writer callback bs s w Hvalue Hok Hover)
    in H.
  exact H.
Qed.

Lemma collecting_session_ok : packet_ok (packet collecting_session).
Proof. split; [reflexivity|]. cbn. unfold SUBNEGOTIATION_CAPACITY. lia. Qed.

Lemma telnet_read_stores_subnegotiation_data_witness :
  state collecting_session = TELNET_STATE_IN_SUBNEGOTIATION_VALUE
  /\ packet_ok (packet collecting_session)
  /\ subnegotiation_length (packet collecting_session)
     + len [1; TELNET_IAC; 2] <= SUBNEGOTIATION_CAPACITY
  /\ len (escape [1; TELNET_IAC; 2]) < 2 ^ SIZE_BITS
  /\ exists (r : read_result) (s' : telnet_session_t),
       telnet_read (Some collecting_session) (Some (escape [1; TELNET_IAC; 2]))
         (len (escape [1; TELNET_IAC; 2])) None (Some discard) quiet
       = Ok r
       /\ rr_return r = 0
       /\ rr_world r = quiet
       /\ rr_session r = Some s'
       /\ state s' = TELNET_STATE_IN_SUBNEGOTIATION_VALUE
       /\ subnegotiation_length (packet s')
          = subnegotiation_length (packet collecting_session)
            + len [1; TELNET_IAC; 2]
       /\ take (Z.to_nat (subnegotiation_length (packet s')))
            (subnegotiation_data (packet s'))
          = take (Z.to_nat (subnegotiation_length (packet collecting_session)))
              (subnegotiation_data (packet collecting_session))
            ++ [1; TELNET_IAC; 2].
Proof.
  assert (Hfits : subnegotiation_length (packet collecting_session)
                  + len [1; TELNET_IAC; 2] <= SUBNEGOTIATION_CAPACITY)
    by (vm_compute; discriminate).
  split; [reflexivity|]. split; [exact collecting_session_ok|].
  split; [exact Hfits|]. split; [reflexivity|].
  apply (telnet_read_stores_subnegotiation_data collecting_session
           [1; TELNET_IAC; 2] None (Some discard) quiet);
    [reflexivity|exact collecting_session_ok|exact Hfits|reflexivity].
Defined.

Lemma telnet_read_overruns_when_data_do_not_fit_witness :
  state collecting_session = TELNET_STATE_IN_SUBNEGOTIATION_VALUE
  /\ packet_ok (packet collecting_session)
  /\ SUBNEGOTIATION_CAPACITY
     < subnegotiation_length (packet collecting_session) + len (replicate 65 65)
  /\ len (escape (replicate 65 65)) < 2 ^ SIZE_BITS
  /\ telnet_read (Some collecting_session) (Some (escape (replicate 65 65)))
       (len (escape (replicate 65 65))) None (Some discard) quiet
     = Err WriteOutOfBounds.
Proof.
  split; [reflexivity|]. split; [exact collecting_session_ok|].
  split; [reflexivity|]. split; [reflexivity|].
  apply (telnet_read_overruns_when_data_do_not_fit collecting_session
           (replicate 65 65) None (Some discard) quiet);
    [reflexivity|exact collecting_session_ok|reflexivity|reflexivity].
Defined.

(** ** Negotiation, from the wire to the reply *)

(** Decide the comparisons between constants of the protocol. *)
Ltac decide_constants :=
  repeat match goal with
    | |- context [Z.eqb ?a ?b] =>
        is_const a; is_const b;
        let v := eval vm_compute in (Z.eqb a b) in
        change (Z.eqb a b) with v
    end.

Section NegotiationFacts.

Context {U : Type}.

(** The dispatch of a negotiation packet without callback: one call of the
    writer with the three bytes of the negotiation table. *)
Lemma handle_negotiation (s : telnet_session_t) (writer : telnet_writer_t U)
  (w : world U) :
  command (packet s) = TELNET_WILL \/ command (packet s) = TELNET_WONT
  \/ command (packet s) = TELNET_DO \/ command (packet s) = TELNET_DONT ->
  (command (packet s) = TELNET_WILL \/ command (packet s) = TELNET_DO ->
   0 <= option_ (packet s) < 64) ->
  exists answer : Z,
    negotiation_table s (packet s)
    = Some [TELNET_IAC; answer; option_ (packet s)]
    /\ _handle_incomming_packet (Some s) (Some writer) None w
       = Ok (call_writer writer s [TELNET_IAC; answer; option_ (packet s)]
               (log (Dispatched (packet s)) w)).
Proof.
  intros Hcmd Hrange.
  unfold _handle_incomming_packet, negotiation_table. cbn [negb].
  destruct Hcmd as [Hc|[Hc|[Hc|Hc]]]; rewrite Hc; decide_constants; cbv iota.
  - cbn [telnet_get_option]. rewrite _bit_get_testbit by auto. cbn [bind].
    eexists. split; [reflexivity|].
    destruct (Z.testbit (options s) (option_ (packet s)));
      apply write_negotiation; auto.
  - eexists. split; [reflexivity|]. apply write_negotiation; auto.
  - cbn [telnet_get_option]. rewrite _bit_get_testbit by auto. cbn [bind].
    eexists. split; [reflexivity|].
    destruct (Z.testbit (options s) (option_ (packet s)));
      apply write_negotiation; auto.
  - eexists. split; [reflexivity|]. apply write_negotiation; auto.
Qed.

(** IAC, a negotiation command and an option, read in state READY: the
    three bytes go, the packet holds the command and the option, and the
    packet is dispatched. *)
Lemma scan_negotiation (writer : option (telnet_writer_t U))
  (callback : option (telnet_packet_callback_t U))
  (s : telnet_session_t) (cmd o : Z) (w : world U) :
  state s = TELNET_STATE_READY ->
  cmd = TELNET_WILL \/ cmd = TELNET_WONT \/ cmd = TELNET_DO \/ cmd = TELNET_DONT ->
  scan writer callback s w [TELNET_IAC; cmd; o]
  = let s' := set_packet (set_option_ o (set_command cmd (packet s))) s in
    let* w' := _handle_incomming_packet
                 (Some (set_state TELNET_STATE_IN_OPTION s'))
                 writer callback w in
    Ok (set_state TELNET_STATE_READY s', w', []).
Proof.
  intros Hready Hcmd.
  assert (Hiac : (cmd =? TELNET_IAC) = false)
    by (destruct Hcmd as [->|[->|[->| ->]]]; reflexivity).
  assert (Hneg : (cmd =? TELNET_DO) || (cmd =? TELNET_DONT)
                 || (cmd =? TELNET_WILL) || (cmd =? TELNET_WONT) = true)
    by (destruct Hcmd as [->|[->|[->| ->]]]; reflexivity).
  cbn [scan].
  unfold feed at 1. rewrite Hready. decide_constants. cbn [bind fst snd].
  unfold feed at 1. cbn [state set_state]. rewrite Hiac, Hneg.
  cbn [bind fst snd].
  unfold feed at 1. cbn [state set_state]. cbv zeta.
  unfold set_state, set_packet, set_option_, set_command.
  cbn [state packet options subnegotiation_options user_data command option_
         subnegotiation_type subnegotiation_length subnegotiation_data].
  match goal with
  | |- context [_handle_incomming_packet ?a ?b ?c ?d] =>
      destruct (_handle_incomming_packet a b c d)
  end; reflexivity.
Qed.

End NegotiationFacts.

Section NegotiationOnTheWire.

Context {U : Type}.

(** IAC, a negotiation command and an option read in state READY, without
    callback: the bytes go, the packet is dispatched and answered by the
    table. *)
Lemma telnet_read_negotiation (s : telnet_session_t) (cmd o : Z)
  (writer : telnet_writer_t U) (w : world U) :
  state s = TELNET_STATE_READY ->
  cmd = TELNET_WILL \/ cmd = TELNET_WONT \/ cmd = TELNET_DO \/ cmd = TELNET_DONT ->
  (cmd = TELNET_WILL \/ cmd = TELNET_DO -> 0 <= o < 64) ->
  let p := set_option_ o (set_command cmd (packet s)) in
  exists (r : read_result) (answer : Z),
    telnet_read (Some s) (Some [TELNET_IAC; cmd; o]) 3 None (Some writer) w
    = Ok r
    /\ rr_return r = 0
    /\ rr_session r = Some (set_state TELNET_STATE_READY (set_packet p s))
    /\ negotiation_table s p = Some [TELNET_IAC; answer; o]
    /\ trace (rr_world r)
       = trace w ++ [Dispatched p; Written [TELNET_IAC; answer; o]].
Proof.
  intros Hready Hcmd Hrange p.
  assert (Hsize : len [TELNET_IAC; cmd; o] < 2 ^ SIZE_BITS) by reflexivity.
  pose proof (telnet_read_scan (Some writer) None s [TELNET_IAC; cmd; o] w Hsize)
    as H.
  rewrite (scan_negotiation (Some writer) None s cmd o w Hready Hcmd) in H.
  cbv zeta in H. fold p in H.
  destruct (handle_negotiation
              (set_state TELNET_STATE_IN_OPTION (set_packet p s)) writer w)
    as (answer & Htable & Hhandle).
  { cbn [packet set_state set_packet command]. unfold p.
    cbn [command set_option_ set_command]. exact Hcmd. }
  { cbn [packet set_state set_packet command option_]. unfold p.
    cbn [command option_ set_option_ set_command]. exact Hrange. }
  rewrite Hhandle in H. cbn [bind fst snd] in H.
  destruct H as (stale & _ & Hread).
  change (len [TELNET_IAC; cmd; o]) with 3 in Hread.
  eexists. exists answer. split; [exact Hread|].
  cbn [rr_return rr_session rr_world].
  split; [reflexivity|]. split; [reflexivity|].
  split.
  - cbn [packet set_state set_packet] in Htable.
    unfold p in *. cbn [option_ set_option_ set_command] in Htable.
    exact Htable.
  - unfold call_writer, log. cbn [trace host packet set_state set_packet].
    unfold p. cbn [option_ set_option_ set_command].
    rewrite <- app_assoc. reflexivity.
Qed.

End NegotiationOnTheWire.

(** X14. A negotiation on the wire: IAC, one of WILL, WONT, DO, DONT and an
    option, read in state READY without callback (the option below 64 for
    WILL and DO), leave nothing in the buffer, put command and option in
    the packet, bring the session back to READY, and cause one dispatch
    followed by one call of the writer with the three bytes of the
    negotiation table. *)
Theorem telnet_read_answers_negotiation {U : Type} (s : telnet_session_t)
  (cmd o : Z) (writer : telnet_writer_t U) (w : world U) :
  state s = TELNET_STATE_READY ->
  cmd = TELNET_WILL \/ cmd = TELNET_WONT \/ cmd = TELNET_DO \/ cmd = TELNET_DONT ->
  (cmd = TELNET_WILL \/ cmd = TELNET_DO -> 0 <= o < 64) ->
  exists (r : read_result) (answer : Z),
    telnet_read (Some s) (Some [TELNET_IAC; cmd; o]) 3 None (Some writer) w
    = Ok r
    /\ rr_return r = 0
    /\ rr_session r
       = Some (set_state TELNET_STATE_READY
                 (set_packet (set_option_ o (set_command cmd (packet s))) s))
    /\ negotiation_table s (set_option_ o (set_command cmd (packet s)))
       = Some [TELNET_IAC; answer; o]
    /\ trace (rr_world r)
       = trace w ++ [Dispatched (set_option_ o (set_command cmd (packet s)));
                     Written [TELNET_IAC; answer; o]].
Proof. intros Hready Hcmd Hrange. apply telnet_read_negotiation; assumption. Qed.

Lemma telnet_read_answers_negotiation_witness :
  state do_3_session = TELNET_STATE_READY
  /\ (TELNET_DO = TELNET_WILL \/ TELNET_DO = TELNET_WONT
      \/ TELNET_DO = TELNET_DO \/ TELNET_DO = TELNET_DONT)
  /\ (TELNET_DO = TELNET_WILL \/ TELNET_DO = TELNET_DO -> 0 <= 3 < 64)
  /\ exists (r : read_result) (answer : Z),
       telnet_read (Some do_3_session) (Some [TELNET_IAC; TELNET_DO; 3]) 3
         None (Some discard) quiet = Ok r
       /\ rr_return r = 0
       /\ rr_session r
          = Some (set_state TELNET_STATE_READY
                    (set_packet
                       (set_option_ 3
                          (set_command TELNET_DO (packet do_3_session)))
                       do_3_session))
       /\ negotiation_table do_3_session
            (set_option_ 3 (set_command TELNET_DO (packet do_3_session)))
          = Some [TELNET_IAC; answer; 3]
       /\ trace (rr_world r)
          = trace quiet
            ++ [Dispatched (set_option_ 3
                              (set_command TELNET_DO (packet do_3_session)));
                Written [TELNET_IAC; answer; 3]].
Proof.
  split; [reflexivity|]. split; [right; right; left; reflexivity|].
  split; [intros _; lia|].
  apply (telnet_read_answers_negotiation do_3_session TELNET_DO 3 discard quiet);
    [reflexivity|right; right; left; reflexivity|intros _; lia].
Defined.

(** X15. A freshly initialized session refuses every option: whatever the
    session memory was before [telnet_init], IAC WILL o is answered by
    IAC DONT o and IAC DO o by IAC WONT o, for every option below 64. *)
Theorem fresh_session_refuses {U : Type} (s0 : telnet_session_t) (o : Z)
  (writer : telnet_writer_t U) (w : world U) :
  0 <= o < 64 ->
  (exists r : read_result,
     telnet_read (telnet_init (Some s0)) (Some [TELNET_IAC; TELNET_WILL; o]) 3
       None (Some writer) w = Ok r
     /\ written (trace (rr_world r))
        = written (trace w) ++ [[TELNET_IAC; TELNET_DONT; o]])
  /\ (exists r : read_result,
        telnet_read (telnet_init (Some s0)) (Some [TELNET_IAC; TELNET_DO; o]) 3
          None (Some writer) w = Ok r
        /\ written (trace (rr_world r))
           = written (trace w) ++ [[TELNET_IAC; TELNET_WONT; o]]).
Proof.
  intros Ho. cbn [telnet_init telnet_init_packet].
  split.
  - match goal with
    | |- context [telnet_read (Some ?s) _ _ _ _ _] =>
        destruct (telnet_read_negotiation s TELNET_WILL o writer w)
          as (r & answer & Hread & _ & _ & Htable & Htrace);
        [reflexivity|auto|auto|]
    end.
    exists r. split; [exact Hread|].
    rewrite Htrace, written_app. cbn [written].
    unfold negotiation_table in Htable.
    cbn [command option_ options set_option_ set_command set_user_data
           set_subnegotiation_options set_options set_packet set_state]
      in Htable.
    rewrite Z.bits_0 in Htable. vm_compute (TELNET_WILL =? TELNET_WILL) in Htable.
    cbv iota in Htable. inversion Htable. reflexivity.
  - match goal with
    | |- context [telnet_read (Some ?s) _ _ _ _ _] =>
        destruct (telnet_read_negotiation s TELNET_DO o writer w)
          as (r & answer & Hread & _ & _ & Htable & Htrace);
        [reflexivity|auto|auto|]
    end.
    exists r. split; [exact Hread|].
    rewrite Htrace, written_app. cbn [written].
    unfold negotiation_table in Htable.
    cbn [command option_ options set_option_ set_command set_user_data
           set_subnegotiation_options set_options set_packet set_state]
      in Htable.
    rewrite Z.bits_0 in Htable.
    vm_compute (TELNET_DO =? TELNET_WILL) in Htable.
    vm_compute (TELNET_DO =? TELNET_WONT) in Htable.
    vm_compute (TELNET_DO =? TELNET_DO) in Htable.
    cbv iota in Htable. inversion Htable. subst answer. rewrite ?Hbit.
    reflexivity.
Qed.

Lemma fresh_session_refuses_witness :
  0 <= 3 < 64
  /\ (exists r : read_result,
        telnet_read (telnet_init (Some zeroed_session))
          (Some [TELNET_IAC; TELNET_WILL; 3]) 3 None (Some discard) quiet = Ok r
        /\ written (trace (rr_world r))
           = written (trace quiet) ++ [[TELNET_IAC; TELNET_DONT; 3]])
  /\ (exists r : read_result,
        telnet_read (telnet_init (Some zeroed_session))
          (Some [TELNET_IAC; TELNET_DO; 3]) 3 None (Some discard) quiet = Ok r
        /\ written (trace (rr_world r))
           = written (trace quiet) ++ [[TELNET_IAC; TELNET_WONT; 3]]).
Proof.
  split; [lia|].
  apply (fresh_session_refuses zeroed_session 3 discard quiet). lia.
Defined.

(** ** One dispatch *)

Section DispatchFacts.

Context {U : Type}.

(** [telnet_write_packet] calls the writer once or not at all. *)
Lemma telnet_write_packet_trace (s : option telnet_session_t)
  (p : option telnet_packet_t) (writer : option (telnet_writer_t U))
  (w w' : world U) :
  telnet_write_packet s p writer w = Ok w' ->
  exists replies : list (list Z),
    trace w' = trace w ++ map Written replies /\ (length replies <= 1)%nat.
Proof.
  unfold telnet_write_packet.
  destruct s as [s|], p as [p|], writer as [wr|];
    try (intros H; inversion H; subst; exists [];
         rewrite app_nil_r; split; [reflexivity|cbn; lia]).
  match goal with
  | |- bind ?m _ = _ -> _ => destruct m as [buffer|e]
  end; cbn [bind]; [|discriminate].
  intros H. inversion H. subst. exists [buffer].
  split; [reflexivity|cbn; lia].
Qed.

Lemma handle_trace (s : telnet_session_t)
  (writer : option (telnet_writer_t U))
  (callback : option (telnet_packet_callback_t U)) (w w' : world U) :
  _handle_incomming_packet (Some s) writer callback w = Ok w' ->
  exists replies : list (list Z),
    trace w' = trace w ++ Dispatched (packet s) :: map Written replies
    /\ (length replies <= 1)%nat.
Proof.
  unfold _handle_incomming_packet.
  destruct (match callback with
            | Some cb => call_callback cb s (packet s)
                           (log (Dispatched (packet s)) w)
            | None => (true, log (Dispatched (packet s)) w)
            end) as [b w1] eqn:Hverdict.
  assert (Hw1 : trace w1 = trace w ++ [Dispatched (packet s)]).
  { destruct callback as [cb|].
    - unfold call_callback in Hverdict. cbn [host trace log] in Hverdict.
      destruct (cb s (packet s) (host w)). inversion Hverdict. reflexivity.
    - inversion Hverdict. reflexivity. }
  assert (Hnone : forall w2, Ok w1 = Ok w2 ->
            exists replies : list (list Z),
              trace w2 = trace w ++ Dispatched (packet s) :: map Written replies
              /\ (length replies <= 1)%nat).
  { intros w2 H. inversion H. subst. exists []. rewrite Hw1.
    split; [reflexivity|cbn; lia]. }
  assert (Hwrite : forall p w2,
            telnet_write_packet (Some s) p writer w1 = Ok w2 ->
            exists replies : list (list Z),
              trace w2 = trace w ++ Dispatched (packet s) :: map Written replies
              /\ (length replies <= 1)%nat).
  { intros p w2 H.
    destruct (telnet_write_packet_trace _ _ _ _ _ H) as (replies & Ht & Hn).
    exists replies. rewrite Ht, Hw1, <- app_assoc. split; [reflexivity|exact Hn]. }
  destruct b; cbn [negb]; [|apply Hnone].
  repeat match goal with
    | |- (if ?b then _ else _) = _ -> _ => destruct b
    | |- bind ?m _ = _ -> _ => destruct m; cbn [bind]; [|discriminate]
    | |- match ?x with _ => _ end = _ -> _ => destruct x
    end;
    first [ apply Hwrite | apply Hnone ].
Qed.

End DispatchFacts.

(** X16. One dispatch, at most one reply: whenever
    [_handle_incomming_packet] returns, it has logged the packet of the
    session once and called the writer once or not at all, whatever the
    packet, the callback and the writer are. *)
Theorem dispatch_writes_at_most_once {U : Type} (s : telnet_session_t)
  (writer : option (telnet_writer_t U))
  (callback : option (telnet_packet_callback_t U)) (w : world U) :
  match _handle_incomming_packet (Some s) writer callback w with
  | Ok w' =>
      exists replies : list (list Z),
        trace w' = trace w ++ Dispatched (packet s) :: map Written replies
        /\ (length replies <= 1)%nat
  | Err _ => True
  end.
Proof.
  destruct (_handle_incomming_packet (Some s) writer callback w) as [w'|e]
    eqn:H; [|exact I].
  apply (handle_trace s writer callback w w' H).
Qed.

(** X17. Options set through the registry steer the negotiation: after
    [telnet_set_option] with value [v] for an option below 64, a WILL for
    that option is answered DO when [v] is true and DONT when it is false,
    and a DO is answered WILL when [v] is true and WONT when it is false. *)
Theorem option_set_then_negotiate {U : Type} (s : telnet_session_t) (o : Z)
  (v : bool) (writer : telnet_writer_t U) (w : world U) :
  0 <= o < 64 ->
  exists s' : telnet_session_t,
    telnet_set_option (Some s) o v = Ok (Some s')
    /\ (let p := set_option_ o (set_command TELNET_WILL (packet s')) in
        _handle_incomming_packet (Some (set_packet p s')) (Some writer) None w
        = Ok (call_writer writer (set_packet p s')
                [TELNET_IAC; if v then TELNET_DO else TELNET_DONT; o]
                (log (Dispatched p) w)))
    /\ (let p := set_option_ o (set_command TELNET_DO (packet s')) in
        _handle_incomming_packet (Some (set_packet p s')) (Some writer) None w
        = Ok (call_writer writer (set_packet p s')
                [TELNET_IAC; if v then TELNET_WILL else TELNET_WONT; o]
                (log (Dispatched p) w))).
Proof.
  intros Ho.
  destruct (telnet_set_option_get s o v Ho) as (s' & Hset & Hget & _).
  exists s'. split; [exact Hset|].
  cbn [telnet_get_option] in Hget. rewrite _bit_get_testbit in Hget by exact Ho.
  inversion Hget as [Hbit].
  split; cbv zeta.
  - destruct (handle_negotiation
                (set_packet (set_option_ o (set_command TELNET_WILL (packet s')))
                   s') writer w) as (answer & Htable & ->); [auto|auto|].
    unfold negotiation_table, set_packet, set_option_, set_command in Htable.
    cbn [packet command option_ options] in Htable.
    rewrite Hbit in Htable.
    vm_compute (TELNET_WILL =? TELNET_WILL) in Htable. cbv iota in Htable.
    inversion Htable. subst answer. rewrite ?Hbit. reflexivity.
  - destruct (handle_negotiation
                (set_packet (set_option_ o (set_command TELNET_DO (packet s')))
                   s') writer w) as (answer & Htable & ->); [auto|auto|].
    unfold negotiation_table, set_packet, set_option_, set_command in Htable.
    cbn [packet command option_ options] in Htable.
    rewrite Hbit in Htable.
    vm_compute (TELNET_DO =? TELNET_WILL) in Htable.
    vm_compute (TELNET_DO =? TELNET_WONT) in Htable.
    vm_compute (TELNET_DO =? TELNET_DO) in Htable.
    cbv iota in Htable. inversion Htable. subst answer. rewrite ?Hbit.
    reflexivity.
Qed.

Lemma option_set_then_negotiate_witness :
  0 <= 3 < 64
  /\ exists s' : telnet_session_t,
       telnet_set_option (Some fresh_session) 3 true = Ok (Some s')
       /\ (let p := set_option_ 3 (set_command TELNET_WILL (packet s')) in
           _handle_incomming_packet (Some (set_packet p s')) (Some discard)
             None quiet
           = Ok (call_writer discard (set_packet p s')
                   [TELNET_IAC; if true then TELNET_DO else TELNET_DONT; 3]
                   (log (Dispatched p) quiet)))
       /\ (let p := set_option_ 3 (set_command TELNET_DO (packet s')) in
           _handle_incomming_packet (Some (set_packet p s')) (Some discard)
             None quiet
           = Ok (call_writer discard (set_packet p s')
                   [TELNET_IAC; if true then TELNET_WILL else TELNET_WONT; 3]
                   (log (Dispatched p) quiet))).
Proof.
  split; [lia|].
  apply (option_set_then_negotiate fresh_session 3 true discard quiet). lia.
Defined.

(** X18. Canned replies registered through the registry are what the
    dispatch sends: after [telnet_set_subnegotiation_option] with a
    NUL-terminated string of at most 64 bytes for an option inside the
    table, the packet SB option SEND is answered, in one call of the writer,
    by IAC SB option IS, the bytes of the string before the NUL, IAC SE;
    after registering [NULL] for the option it is not answered. *)
Theorem canned_reply_is_sent {U : Type} (s : telnet_session_t) (o : Z)
  (str : list Z) (writer : telnet_writer_t U) (w : world U) :
  0 <= o < len (subnegotiation_options s) ->
  terminated str = true ->
  len (c_string str) <= SUBNEGOTIATION_CAPACITY ->
  let p := set_subnegotiation_type TELNET_SE_SEND
             (set_option_ o (set_command TELNET_SB (packet s))) in
  (exists s' : telnet_session_t,
     telnet_set_subnegotiation_option (Some s) o (Some str) = Ok (Some s')
     /\ _handle_incomming_packet (Some (set_packet p s')) (Some writer) None w
        = Ok (call_writer writer (set_packet p s')
                ([TELNET_IAC; TELNET_SB; o; TELNET_SE_IS] ++ c_string str
                 ++ [TELNET_IAC; TELNET_SE])
                (log (Dispatched p) w)))
  /\ (exists s' : telnet_session_t,
        telnet_set_subnegotiation_option (Some s) o None = Ok (Some s')
        /\ _handle_incomming_packet (Some (set_packet p s')) (Some writer) None w
           = Ok (log (Dispatched p) w)).
Proof.
  intros Ho Hterm Hfits p.
  unfold telnet_set_subnegotiation_option, array_set.
  cmp_true (0 <=? o). cmp_true (o <? len (subnegotiation_options s)).
  cbn [andb bind].
  split; (eexists; split; [reflexivity|]);
    unfold _handle_incomming_packet; cbn [negb];
    unfold p, set_packet, set_subnegotiation_type, set_option_, set_command,
      set_subnegotiation_options;
    cbn [packet command option_ subnegotiation_type];
    decide_constants; cbv iota;
    cbn [telnet_get_subnegotiation_option subnegotiation_options];
    rewrite array_get_insert_eq by exact Ho; cbn [bind];
    [|reflexivity].
  apply (write_canned_reply _ writer o str _ Hterm Hfits).
Qed.

Lemma canned_reply_is_sent_witness :
  0 <= 24 < len (subnegotiation_options fresh_session)
  /\ terminated [120; 116; 101; 114; 109; 0] = true
  /\ len (c_string [120; 116; 101; 114; 109; 0]) <= SUBNEGOTIATION_CAPACITY
  /\ (exists s' : telnet_session_t,
        telnet_set_subnegotiation_option (Some fresh_session) 24
          (Some [120; 116; 101; 114; 109; 0]) = Ok (Some s')
        /\ _handle_incomming_packet
             (Some (set_packet
                      (set_subnegotiation_type TELNET_SE_SEND
                         (set_option_ 24
                            (set_command TELNET_SB (packet fresh_session))))
                      s'))
             (Some discard) None quiet
           = Ok (call_writer discard
                   (set_packet
                      (set_subnegotiation_type TELNET_SE_SEND
                         (set_option_ 24
                            (set_command TELNET_SB (packet fresh_session))))
                      s')
                   ([TELNET_IAC; TELNET_SB; 24; TELNET_SE_IS]
                    ++ c_string [120; 116; 101; 114; 109; 0]
                    ++ [TELNET_IAC; TELNET_SE])
                   (log (Dispatched
                           (set_subnegotiation_type TELNET_SE_SEND
                              (set_option_ 24
                                 (set_command TELNET_SB (packet fresh_session)))))
                      quiet)))
  /\ (exists s' : telnet_session_t,
        telnet_set_subnegotiation_option (Some fresh_session) 24 None
        = Ok (Some s')
        /\ _handle_incomming_packet
             (Some (set_packet
                      (set_subnegotiation_type TELNET_SE_SEND
                         (set_option_ 24
                            (set_command TELNET_SB (packet fresh_session))))
                      s'))
             (Some discard) None quiet
           = Ok (log (Dispatched
                        (set_subnegotiation_type TELNET_SE_SEND
                           (set_option_ 24
                              (set_command TELNET_SB (packet fresh_session)))))
                   quiet)).
Proof.
  assert (Ho : 0 <= 24 < len (subnegotiation_options fresh_session))
    by (vm_compute; split; [discriminate|reflexivity]).
  assert (Hfits : len (c_string [120; 116; 101; 114; 109; 0])
                  <= SUBNEGOTIATION_CAPACITY) by (vm_compute; discriminate).
  split; [exact Ho|]. split; [reflexivity|]. split; [exact Hfits|].
  apply (canned_reply_is_sent fresh_session 24 [120; 116; 101; 114; 109; 0]
           discard quiet Ho eq_refl Hfits).
Defined.

(** ** The writers *)



Section PlainWrite.

Context {U : Type}.
Variable session : telnet_session_t.
Variable writer : telnet_writer_t U.

(** The loop of [telnet_write] over bytes without IAC: no call of the
    writer, the pending run grows. *)
Lemma write_loop_plain (rest : list Z) :
  forall (run : list Z) (w : world U),
    Forall (fun c => c <> TELNET_IAC) rest ->
    len (run ++ rest) < 2 ^ SIZE_BITS ->
    write_loop (length rest) session (run ++ rest) writer (len run) 0 (len run) w
    = Ok (0, len run + len rest, w).
Proof.
  induction rest as [|c rest IH]; intros run w Hplain Hsize.
  - cbn [length write_loop]. change (len (@nil Z)) with 0.
    rewrite Z.add_0_r. reflexivity.
  - pose proof (len_nonneg run) as Hrun. pose proof (len_nonneg rest) as Hrest.
    inversion Hplain as [|? ? Hc Hplain']. subst.
    rewrite len_app, len_cons in Hsize.
    cbn [length write_loop]. rewrite array_get_middle. cbn [bind].
    cmp_false (c =? TELNET_IAC).
    rewrite !size_wrap_small by lia.
    specialize (IH (run ++ [c]) w Hplain').
    rewrite <- app_assoc in IH. cbn [app] in IH.
    rewrite (len_app run [c]), len_cons, len_nil in IH.
    rewrite len_app, len_cons in IH.
    replace (len run + (0 + 1)) with (len run + 1) in IH by lia.
    rewrite IH by lia. rewrite len_cons. f_equal. f_equal. f_equal. lia.
Qed.

End PlainWrite.

(** X20. Application data without IAC go out as they are: [telnet_write]
    on a buffer that is not empty and holds no IAC calls the writer exactly
    once, with the whole buffer. *)
Theorem telnet_write_plain_data {U : Type} (s : telnet_session_t) (d : list Z)
  (writer : telnet_writer_t U) (w : world U) :
  d <> [] ->
  Forall (fun c => c <> TELNET_IAC) d ->
  len d < 2 ^ SIZE_BITS ->
  telnet_write (Some s) (Some d) (len d) (Some writer) w
  = Ok (call_writer writer s d w).
Proof.
  intros Hne Hplain Hsize. unfold telnet_write.
  assert (Hlen : len d <> 0) by (destruct d; [congruence|rewrite len_cons;
                                   pose proof (len_nonneg d); lia]).
  rewrite (proj2 (Z.eqb_neq _ _) Hlen), to_nat_len.
  pose proof (write_loop_plain s writer d [] w Hplain Hsize) as Hloop.
  cbn [app] in Hloop. change (len (@nil Z)) with 0 in Hloop.
  rewrite Hloop. cbn [bind]. rewrite Z.add_0_l.
  rewrite (slice_front d []) || (pose proof (slice_front d []) as Hs;
                                 rewrite app_nil_r in Hs; rewrite Hs).
  reflexivity.
Qed.

Lemma telnet_write_plain_data_witness :
  [104; 105] <> []
  /\ Forall (fun c => c <> TELNET_IAC) [104; 105]
  /\ len [104; 105] < 2 ^ SIZE_BITS
  /\ telnet_write (Some fresh_session) (Some [104; 105]) (len [104; 105])
       (Some discard) quiet
     = Ok (call_writer discard fresh_session [104; 105] quiet).
Proof.
  assert (Hplain : Forall (fun c => c <> TELNET_IAC) [104; 105])
    by (repeat constructor; discriminate).
  split; [discriminate|]. split; [exact Hplain|]. split; [reflexivity|].
  apply (telnet_write_plain_data fresh_session [104; 105] discard quiet);
    [discriminate|exact Hplain|reflexivity].
Defined.

(** X21. What [telnet_write] hands to the sink, for every buffer: the bytes
    of the buffer in their order, every IAC three times (once at the end of
    the run written before the escape pair, twice in the pair). *)
Theorem telnet_write_sink_bytes {U : Type} (s : telnet_session_t) (d : list Z)
  (writer : telnet_writer_t U) (w : world U) :
  len d < 2 ^ SIZE_BITS ->
  exists w' : world U,
    telnet_write (Some s) (Some d) (len d) (Some writer) w = Ok w'
    /\ sink (trace w') = sink (trace w) ++ tripled d.
Proof. apply telnet_write_sink. Qed.

Lemma telnet_write_sink_bytes_witness :
  len [104; TELNET_IAC; 105] < 2 ^ SIZE_BITS
  /\ exists w' : world unit,
       telnet_write (Some fresh_session) (Some [104; TELNET_IAC; 105])
         (len [104; TELNET_IAC; 105]) (Some discard) quiet = Ok w'
       /\ sink (trace w') = sink (trace quiet) ++ tripled [104; TELNET_IAC; 105].
Proof.
  split; [reflexivity|].
  apply (telnet_write_sink_bytes fresh_session [104; TELNET_IAC; 105] discard
           quiet).
  reflexivity.
Defined.

(** ** From the writer of packets to the reader *)




(** ** Reading without a writer *)

Lemma slice_result (a : list Z) (start n : Z) (bytes : list Z) :
  slice a start n = Ok bytes -> 0 <= n /\ len bytes = n.
Proof.
  unfold slice.
  destruct (Z.leb_spec 0 start) as [Hs|]; [|discriminate].
  destruct (Z.leb_spec 0 n) as [Hn|]; [|discriminate].
  destruct (Z.leb_spec (start + n) (len a)) as [Hfit|]; [|discriminate].
  cbn [andb]. intros H. inversion H. split; [exact Hn|].
  unfold len in *. rewrite length_take, length_drop. lia.
Qed.

Lemma memcpy_result (dst src : list Z) (n : Z) (bytes : list Z) :
  memcpy dst src n = Ok bytes -> 0 <= n <= len dst /\ len bytes = len dst.
Proof.
  unfold memcpy.
  destruct (slice src 0 n) as [front|e] eqn:Hslice; cbn [bind]; [|discriminate].
  destruct (slice_result _ _ _ _ Hslice) as [Hn Hfront].
  destruct (Z.leb_spec n (len dst)) as [Hfit|]; [|discriminate].
  intros H. inversion H. split; [lia|].
  rewrite len_app, Hfront. unfold len in *. rewrite length_drop. lia.
Qed.

Section NoWriter.

Context {U : Type}.
Variable writer : telnet_writer_t U.

(** Without callback, the dispatch with a writer and the dispatch without
    one end alike; without a writer it only logs the packet. *)
Lemma handle_without_writer (s : telnet_session_t) (w1 w2 : world U) :
  match _handle_incomming_packet (Some s) (Some writer) None w1,
        _handle_incomming_packet (Some s) None None w2 with
  | Ok _, Ok w2' => w2' = log (Dispatched (packet s)) w2
  | Err e1, Err e2 => e1 = e2
  | _, _ => False
  end.
Proof.
  unfold _handle_incomming_packet. cbn [negb].
  destruct (command (packet s) =? TELNET_WILL).
  { destruct (telnet_get_option (Some s) (option_ (packet s))) as [b|e];
      cbn [bind]; [|reflexivity].
    rewrite write_negotiation by (destruct b; auto). reflexivity. }
  destruct (command (packet s) =? TELNET_WONT).
  { rewrite write_negotiation by auto. reflexivity. }
  destruct (command (packet s) =? TELNET_DO).
  { destruct (telnet_get_option (Some s) (option_ (packet s))) as [b|e];
      cbn [bind]; [|reflexivity].
    rewrite write_negotiation by (destruct b; auto). reflexivity. }
  destruct (command (packet s) =? TELNET_DONT).
  { rewrite write_negotiation by auto. reflexivity. }
  destruct (command (packet s) =? TELNET_SB); [|reflexivity].
  destruct (subnegotiation_type (packet s) =? TELNET_SE_SEND); [|reflexivity].
  destruct (telnet_get_subnegotiation_option (Some s) (option_ (packet s)))
    as [[reply|]|e]; cbn [bind]; try reflexivity.
  destruct (strlen reply) as [n|e]; cbn [bind]; [|reflexivity].
  destruct (memcpy _ reply n) as [bytes|e] eqn:Hcopy; cbn [bind]; [|reflexivity].
  destruct (memcpy_result _ _ _ _ Hcopy) as [Hn Hbytes].
  rewrite telnet_write_packet_once; [reflexivity| |];
    cbn [subnegotiation_length subnegotiation_data set_subnegotiation];
    rewrite Hbytes; [exact Hn|reflexivity].
Qed.

Lemma feed_without_writer (s : telnet_session_t) (w1 w2 : world U) (c : Z) :
  match feed (Some writer) None s w1 c, feed None None s w2 c with
  | Ok r1, Ok r2 =>
      fst (fst r2) = fst (fst r1) /\ snd r2 = snd r1
      /\ host (snd (fst r2)) = host w2
      /\ written (trace (snd (fst r2))) = written (trace w2)
  | Err e1, Err e2 => e1 = e2
  | _, _ => False
  end.
Proof.
  unfold feed.
  destruct (state s);
    repeat match goal with
      | |- context [if ?b then _ else _] => destruct b
      end;
    repeat match goal with
      | |- context [packet_append ?a ?b] => destruct (packet_append a b)
      end;
    cbn [bind fst snd]; try (repeat split; reflexivity);
    match goal with
    | |- context [_handle_incomming_packet (Some ?x) (Some writer) None w1] =>
        pose proof (handle_without_writer x w1 w2) as H;
        destruct (_handle_incomming_packet (Some x) (Some writer) None w1);
        destruct (_handle_incomming_packet (Some x) None None w2);
        cbn [bind fst snd]; try exact H; subst;
        cbn [log host trace]; rewrite written_app; cbn [written];
        rewrite app_nil_r; repeat split; reflexivity
    end.
Qed.

Lemma scan_without_writer (input : list Z) :
  forall (s : telnet_session_t) (w1 w2 : world U),
    match scan (Some writer) None s w1 input, scan None None s w2 input with
    | Ok r1, Ok r2 =>
        fst (fst r2) = fst (fst r1) /\ snd r2 = snd r1
        /\ host (snd (fst r2)) = host w2
        /\ written (trace (snd (fst r2))) = written (trace w2)
    | Err e1, Err e2 => e1 = e2
    | _, _ => False
    end.
Proof.
  induction input as [|c input IH]; intros s w1 w2; cbn [scan].
  - repeat split; reflexivity.
  - pose proof (feed_without_writer s w1 w2 c) as Hfeed.
    destruct (feed (Some writer) None s w1 c) as [[[s1 v1] k1]|e1];
      destruct (feed None None s w2 c) as [[[s2 v2] k2]|e2];
      cbn [bind fst snd] in *; try exact Hfeed; try contradiction.
    destruct Hfeed as (-> & -> & Hhost & Hwritten).
    specialize (IH s1 v1 v2).
    destruct (scan (Some writer) None s1 v1 input) as [[[s3 v3] k3]|e3];
      destruct (scan None None s1 v2 input) as [[[s4 v4] k4]|e4];
      cbn [bind fst snd] in *; try exact IH; try contradiction.
    destruct IH as (-> & -> & Hhost' & Hwritten').
    repeat split; congruence.
Qed.

End NoWriter.

(** X23. A [NULL] writer is tolerated: without callback, [telnet_read]
    with no writer ends as it does with a writer (the same undefined
    behaviour, or the same session and the same bytes retained), and it
    leaves the host and the log of the writer's calls untouched: the
    replies are dropped silently. *)
Theorem telnet_read_without_writer {U : Type} (s : telnet_session_t)
  (d : list Z) (writer : telnet_writer_t U) (w : world U) :
  len d < 2 ^ SIZE_BITS ->
  match read_outcome (telnet_read (Some s) (Some d) (len d) None (Some writer) w),
        read_outcome (telnet_read (Some s) (Some d) (len d) None None w) with
  | Ok o1, Ok o2 =>
      fst (fst o2) = fst (fst o1) /\ snd o2 = snd o1
      /\ host (snd (fst o2)) = host w
      /\ written (trace (snd (fst o2))) = written (trace w)
  | Err e1, Err e2 => e1 = e2
  | _, _ => False
  end.
Proof.
  intros Hsize. rewrite !read_outcome_scan by exact Hsize.
  pose proof (scan_without_writer writer d s w w) as H.
  destruct (scan (Some writer) None s w d) as [[[s1 v1] k1]|e1];
    destruct (scan None None s w d) as [[[s2 v2] k2]|e2];
    cbn [bind fst snd] in *; try exact H.
  destruct H as (-> & -> & Hhost & Hwritten). repeat split; assumption.
Qed.

Lemma telnet_read_without_writer_witness :
  len [104; TELNET_IAC; TELNET_DO; 3; 105] < 2 ^ SIZE_BITS
  /\ match read_outcome
             (telnet_read (Some fresh_session)
                (Some [104; TELNET_IAC; TELNET_DO; 3; 105])
                (len [104; TELNET_IAC; TELNET_DO; 3; 105])
                None (Some discard) quiet),
           read_outcome
             (telnet_read (Some fresh_session)
                (Some [104; TELNET_IAC; TELNET_DO; 3; 105])
                (len [104; TELNET_IAC; TELNET_DO; 3; 105])
                None None quiet) with
     | Ok o1, Ok o2 =>
         fst (fst o2) = fst (fst o1) /\ snd o2 = snd o1
         /\ host (snd (fst o2)) = host quiet
         /\ written (trace (snd (fst o2))) = written (trace quiet)
     | Err e1, Err e2 => e1 = e2
     | _, _ => False
     end.
Proof.
  split; [reflexivity|].
  apply (telnet_read_without_writer fresh_session
           [104; TELNET_IAC; TELNET_DO; 3; 105] discard quiet).
  reflexivity.
Defined.
